(** * LinguaTutor webhook: the voice pipeline of [src/app/api/bot/route.ts]

    A shallow embedding of the route handler and of the six helpers it
    sequences.  The handler is effectful: it reads the request body (a
    one-shot stream), calls five external services and may throw at almost
    every line.  It is modelled in a small state-and-exception monad whose
    state holds the request object and the log of outbound calls; the
    services are a record of oracles ([World]) quantified over in every
    theorem.

    Every [await] is assumed to settle: a service that never answers (the
    source sets no timeout) is outside the model. *)

From Stdlib Require Import List Bool NArith ZArith String Ascii Lia.
From Stdlib.Strings Require Import Byte.
From Corelib Require Import PrimFloat.
Import ListNotations.

Set Implicit Arguments.
Set Warnings "-register-all,-abstract-large-number,-inexact-float".

(* ================================================================== *)
(** ** JavaScript strings *)

(** A JavaScript string is a sequence of UTF-16 code units. *)
Definition jsstring := list N.

(** The code units of an ASCII literal of the source. *)
Definition lit (s : string) : jsstring :=
  map N_of_ascii (list_ascii_of_string s).

Fixpoint jsstring_eqb (a b : jsstring) : bool :=
  match a, b with
  | [], [] => true
  | x :: a', y :: b' => N.eqb x y && jsstring_eqb a' b'
  | _, _ => false
  end.

(** ECMA-262 WhiteSpace and LineTerminator code points: what
    [String.prototype.trim] strips from both ends. *)
Definition isWhiteSpace (c : N) : bool :=
  existsb (N.eqb c)
    [0x09; 0x0B; 0x0C; 0x20; 0xA0; 0xFEFF; 0x1680; 0x202F; 0x205F; 0x3000]%N
  || (N.leb 0x2000 c && N.leb c 0x200A).

Definition isLineTerminator (c : N) : bool :=
  existsb (N.eqb c) [0x0A; 0x0D; 0x2028; 0x2029]%N.

Definition stripped (c : N) : bool := isWhiteSpace c || isLineTerminator c.

Fixpoint trimStart (s : jsstring) : jsstring :=
  match s with
  | [] => []
  | c :: rest => if stripped c then trimStart rest else s
  end.

Definition trimEnd (s : jsstring) : jsstring := rev (trimStart (rev s)).

Definition trim (s : jsstring) : jsstring := trimEnd (trimStart s).

(** "Empty or whitespace-only". *)
Definition blank (s : jsstring) : bool := forallb stripped s.

(* ================================================================== *)
(** ** JavaScript values read from JSON *)

(** The values the handler meets in [body] and in the metadata reply:
    what [JSON.parse] builds, plus [undefined] for a missing property.  A
    number is a binary64 float.  An object is the list of its own
    properties, as parsed (each key once). *)
Inductive jsval : Type :=
| JUndefined
| JNull
| JBool (b : bool)
| JNum (x : float)
| JStr (s : jsstring)
| JArr (items : list jsval)
| JObj (props : list (jsstring * jsval)).

(** ToBoolean. *)
Definition truthy (v : jsval) : bool :=
  match v with
  | JUndefined | JNull => false
  | JBool b => b
  | JNum x => negb (is_zero x || is_nan x)
  | JStr s => negb (jsstring_eqb s [])
  | JArr _ | JObj _ => true
  end.

Definition nullish (v : jsval) : bool :=
  match v with
  | JUndefined | JNull => true
  | _ => false
  end.

Fixpoint own (k : jsstring) (props : list (jsstring * jsval)) : option jsval :=
  match props with
  | [] => None
  | (k', v) :: rest => if jsstring_eqb k k' then Some v else own k rest
  end.

(** The value of [v.k] when the read does not throw.  None of the keys the
    handler reads ([message], [voice], [chat], [id], [file_id], [ok],
    [description], [result], [file_path]) is a property of a prototype, so
    only an object's own properties answer; a primitive or an array gives
    [undefined]. *)
Definition prop (v : jsval) (k : string) : jsval :=
  match v with
  | JObj props => match own (lit k) props with Some x => x | None => JUndefined end
  | _ => JUndefined
  end.

(** ToString as a template literal [`${v}`] applies it: it throws a
    TypeError on an object whose own [toString] is not callable (no value
    of JSON is callable, and [Object.prototype.valueOf] gives no primitive);
    an array joins the conversions of its non-nullish items.  [printable v]
    says whether the conversion returns. *)
Fixpoint printable (v : jsval) : bool :=
  match v with
  | JArr items => forallb printable items
  | JObj props => match own (lit "toString") props with Some _ => false | None => true end
  | _ => true
  end.

(** Whether the method call [v.toString()] returns: it throws on
    [undefined] and [null], and on an object whose own [toString] is not
    callable; on an array it joins as above. *)
Definition toString_returns (v : jsval) : bool :=
  negb (nullish v) && printable v.

(* ================================================================== *)
(** ** Thrown values and results *)

(** The parts of a template literal: its text is the concatenation of the
    literal parts and of the conversions of the interpolated values. *)
Inductive Piece : Type :=
| Lit (s : jsstring)
| Interp (v : jsval)          (* ${v} *)
| Stringified (v : jsval).    (* ${JSON.stringify(v)} *)

Inductive Thrown : Type :=
| TypeError                       (* raised by the runtime *)
| SyntaxError                     (* JSON.parse *)
| Error (message : list Piece)    (* new Error(`...`) of the source *)
| Fault (reason : jsstring).      (* any other value a service rejects with *)

Inductive Result (A : Type) : Type :=
| Ok (a : A)
| Throw (e : Thrown).
Arguments Ok {A} a.
Arguments Throw {A} e.

(** The text of a message whose interpolated values are strings. *)
Fixpoint render (m : list Piece) : option jsstring :=
  match m with
  | [] => Some []
  | Lit s :: rest => option_map (app s) (render rest)
  | Interp (JStr s) :: rest => option_map (app s) (render rest)
  | _ :: _ => None
  end.

Definition Buffer := list byte.

(* ================================================================== *)
(** ** The request object *)

(** [NextRequest] extends the Fetch [Request], whose body is a stream that
    can be read once.  In the Fetch standard (Body mixin; Request, method
    [clone]) an object is *unusable* when its body is non-null and its
    stream is disturbed or locked.  [json()] rejects with a TypeError on an
    unusable object; otherwise it reads the body to its end, which disturbs
    the stream, and parses the bytes as JSON, a null body reading as no
    bytes.  [clone()] throws a TypeError on an unusable object (its first
    step) and otherwise returns a request with the same body. *)
Module Request.

Inductive Text : Type :=
| Unparsable            (* JSON.parse throws a SyntaxError on it *)
| Parses (v : jsval).   (* JSON.parse returns [v] *)

Record t : Type := { body : option Text; disturbed : bool }.

Definition unusable (r : t) : bool :=
  match body r with
  | Some _ => disturbed r
  | None => false
  end.

Definition parse (b : option Text) : Result jsval :=
  match b with
  | Some (Parses v) => Ok v
  | Some Unparsable | None => Throw SyntaxError
  end.

(** [r.json()]: the object after the call and what the promise settles to. *)
Definition json (r : t) : t * Result jsval :=
  if unusable r then (r, Throw TypeError)
  else ({| body := body r; disturbed := true |}, parse (body r)).

(** [r.clone()]. *)
Definition clone (r : t) : Result t :=
  if unusable r then Throw TypeError else Ok r.

(** The request of a webhook delivery whose body text parses as [v]. *)
Definition incoming (v : jsval) : t :=
  {| body := Some (Parses v); disturbed := false |}.

End Request.

(* ================================================================== *)
(** ** The external services *)

(** What a [fetch] of the source resolves to, as far as the source reads it. *)
Module Response.
Record t : Type := {
  ok : bool;
  statusText : jsstring;
  json : Result jsval;          (* what [response.json()] settles to *)
  arrayBuffer : Result Buffer   (* what [response.arrayBuffer()] settles to *)
}.
End Response.

(** The four requests the source issues with [fetch], by endpoint, with the
    values interpolated into the URL or placed in the body. *)
Inductive FetchRequest : Type :=
| GetFile (file_id : jsval)
    (* GET `${TELEGRAM_API}/getFile?file_id=${fileId}` *)
| FileDownload (filePath : jsval)
    (* GET `https://api.telegram.org/file/bot${TELEGRAM_TOKEN}/${filePath}` *)
| SendVoice (chat_id : jsval) (voice : Buffer)
    (* POST sendVoice, multipart: chat_id = chatId.toString(),
       voice = the buffer as audio/mpeg, filename response.mp3 *)
| SendMessage (chat_id : jsval) (text : jsstring).
    (* POST sendMessage, JSON {chat_id, text} *)

Module Transcriptions.
Record File : Type := { bits : Buffer; name : jsstring; mime : jsstring }.
Record params : Type := { file : File; model : jsstring; language : jsstring }.
End Transcriptions.

Module Completions.
Record message : Type := { role : jsstring; content : jsstring }.
Record params : Type := {
  model : jsstring;
  messages : list message;
  max_tokens : Z;
  temperature : float
}.
End Completions.

(** The reply of [groq.chat.completions.create]; [None] is a missing or
    null member, which the source guards with [?.] and [||]. *)
Record ChatCompletionMessage : Type := { content : option jsstring }.
Record Choice : Type := { message : option ChatCompletionMessage }.
Record ChatCompletion : Type := { choices : list Choice }.

(** A synthesis stream as the events it emits: ['data'] chunks, closed by
    ['end'] or by ['error']. *)
Inductive Readable : Type :=
| Data (chunk : Buffer) (rest : Readable)
| End_
| Err (err : Thrown).

Inductive OUTPUT_FORMAT : Type := AUDIO_24KHZ_96KBITRATE_MONO_MP3.

(** How the services answer.  The requests of one invocation are pairwise
    distinct, so a function of the request describes any deterministic
    environment. *)
Record World : Type := {
  fetch : FetchRequest -> Result Response.t;
  transcriptions_create : Transcriptions.params -> Result jsstring;
      (* the [text] of the transcription *)
  completions_create : Completions.params -> Result ChatCompletion;
  setMetadata : jsstring -> OUTPUT_FORMAT -> Result unit;
  toStream : jsstring -> Result Readable
}.

(** An outbound call, as logged. *)
Inductive Call : Type :=
| Fetch (r : FetchRequest)
| Transcribe (p : Transcriptions.params)
| Complete (p : Completions.params)
| SetMetadata (voice : jsstring) (format : OUTPUT_FORMAT)
| ToStream (text : jsstring).

(* ================================================================== *)
(** ** The monad of the handler *)

Record State : Type := { request : Request.t; calls : list Call }.

Definition M (A : Type) : Type := State -> State * Result A.

Definition ret {A} (a : A) : M A := fun s => (s, Ok a).

Definition throw {A} (e : Thrown) : M A := fun s => (s, Throw e).

Definition bind {A B} (m : M A) (k : A -> M B) : M B :=
  fun s =>
    match m s with
    | (s', Ok a) => k a s'
    | (s', Throw e) => (s', Throw e)
    end.

(** [try { m } catch (e) { h e }]: the effects of [m] up to the throw stay. *)
Definition try_catch {A} (m : M A) (h : Thrown -> M A) : M A :=
  fun s =>
    match m s with
    | (s', Ok a) => (s', Ok a)
    | (s', Throw e) => h e s'
    end.

(** [await p] for a promise whose outcome is known. *)
Definition await {A} (r : Result A) : M A := fun s => (s, r).

Definition log (s : State) (c : Call) : State :=
  {| request := request s; calls := calls s ++ [c] |}.

(** An outbound call: logged, then answered by the world. *)
Definition outbound {A} (c : Call) (answer : Result A) : M A :=
  fun s => (log s c, answer).

Declare Scope js_scope.
Delimit Scope js_scope with js.
Notation "x <- m ;; k" := (bind m (fun x => k))
  (at level 61, m at next level, right associativity) : js_scope.
Notation "m ;; k" := (bind m (fun _ => k))
  (at level 61, right associativity) : js_scope.
Local Open Scope js_scope.

(** [v.k]: a TypeError on [undefined] and [null]. *)
Definition get (v : jsval) (k : string) : M jsval :=
  if nullish v then throw TypeError else ret (prop v k).

(** Evaluating a template literal: every interpolated value is converted. *)
Definition converts (p : Piece) : bool :=
  match p with
  | Interp v => printable v
  | Lit _ | Stringified _ => true
  end.

Definition template (m : list Piece) : M (list Piece) :=
  if forallb converts m then ret m else throw TypeError.

(** [console.log]/[console.error] of a template: the console is not part
    of the state, only the conversion can be observed (it may throw). *)
Definition console_log (m : list Piece) : M unit :=
  _ <- template m ;; ret tt.

(** [request.json()] on the handler's request. *)
Definition request_json : M jsval :=
  fun s =>
    let (r', v) := Request.json (request s) in
    ({| request := r'; calls := calls s |}, v).

(** [request.clone()]. *)
Definition request_clone : M Request.t :=
  fun s => (s, Request.clone (request s)).

(* ================================================================== *)
(** ** The source, function by function *)

Definition TUTOR_SYSTEM_PROMPT : jsstring :=
  lit "You are a friendly English tutor. Keep answers concise. Correct any major grammar mistakes gently. If the user speaks in another language, respond in English and encourage them to practice English.".

Definition TTS_VOICE : jsstring := lit "en-US-AndrewNeural".

(** The three fixed texts of the source. *)
Definition FALLBACK_REPLY : jsstring :=
  lit "I apologize, I could not generate a response.".

Definition NOT_UNDERSTOOD : jsstring :=
  lit "I couldn't understand the audio. Please try speaking more clearly.".

Definition APOLOGY : jsstring :=
  lit "Sorry, I encountered an error processing your message. Please try again.".

Section Handler.

Variable w : World.

(** Lines 22-31. *)
Definition getTelegramFilePath (fileId : jsval) : M jsval :=
  _ <- template [Lit (lit "/getFile?file_id="); Interp fileId] ;;
  response <- outbound (Fetch (GetFile fileId)) (fetch w (GetFile fileId)) ;;
  data <- await (Response.json response) ;;
  ok <- get data "ok" ;;
  if negb (truthy ok) then
    description <- get data "description" ;;
    message <- template [Lit (lit "Failed to get file path: "); Interp description] ;;
    throw (Error message)
  else
    result <- get data "result" ;;
    get result "file_path".

(** Lines 36-45. *)
Definition downloadTelegramFile (filePath : jsval) : M Buffer :=
  _ <- template [Lit (lit "https://api.telegram.org/file/bot"); Lit (lit "/"); Interp filePath] ;;
  response <- outbound (Fetch (FileDownload filePath)) (fetch w (FileDownload filePath)) ;;
  if negb (Response.ok response) then
    throw (Error [Lit (lit "Failed to download file: ");
                  Interp (JStr (Response.statusText response))])
  else
    await (Response.arrayBuffer response).

Definition whisper_params (audioBuffer : Buffer) : Transcriptions.params :=
  let audioFile :=
    {| Transcriptions.bits := audioBuffer;
       Transcriptions.name := lit "voice.ogg";
       Transcriptions.mime := lit "audio/ogg" |} in
  {| Transcriptions.file := audioFile;
     Transcriptions.model := lit "whisper-large-v3";
     Transcriptions.language := lit "en" |}.

(** Lines 50-62. *)
Definition transcribeAudio (audioBuffer : Buffer) : M jsstring :=
  let p := whisper_params audioBuffer in
  outbound (Transcribe p) (transcriptions_create w p).

(** [completion.choices[0]?.message?.content]: [None] is undefined or null. *)
Definition first_content (completion : ChatCompletion) : option jsstring :=
  match nth_error (choices completion) 0 with
  | Some choice =>
      match message choice with
      | Some m => content m
      | None => None
      end
  | None => None
  end.

(** [x || fallback] on a string or nothing. *)
Definition or_else (x : option jsstring) (fallback : jsstring) : jsstring :=
  match x with
  | Some ((_ :: _) as s) => s
  | Some [] | None => fallback
  end.

Definition tutor_params (userMessage : jsstring) : Completions.params :=
  {| Completions.model := lit "llama3-8b-8192";
     Completions.messages :=
       [ {| Completions.role := lit "system"; Completions.content := TUTOR_SYSTEM_PROMPT |};
         {| Completions.role := lit "user"; Completions.content := userMessage |} ];
     Completions.max_tokens := 500;
     Completions.temperature := 0.7%float |}.

(** Lines 67-85. *)
Definition getTutorResponse (userMessage : jsstring) : M jsstring :=
  let p := tutor_params userMessage in
  completion <- outbound (Complete p) (completions_create w p) ;;
  ret (or_else (first_content completion) FALLBACK_REPLY).

(** The promise of lines 99-111 over the events of the stream: ['data']
    pushes the chunk, ['end'] resolves with [Buffer.concat(chunks)],
    ['error'] rejects. *)
Fixpoint drain (chunks : list Buffer) (readable : Readable) : Result Buffer :=
  match readable with
  | Data chunk rest => drain (chunks ++ [chunk]) rest
  | End_ => Ok (List.concat chunks)
  | Err err => Throw err
  end.

(** Lines 91-112. *)
Definition generateSpeech (text : jsstring) : M Buffer :=
  let format := AUDIO_24KHZ_96KBITRATE_MONO_MP3 in
  _ <- outbound (SetMetadata TTS_VOICE format) (setMetadata w TTS_VOICE format) ;;
  readable <- outbound (ToStream text) (toStream w text) ;;
  await (drain [] readable).

(** Lines 117-134. *)
Definition sendVoiceToTelegram (chatId : jsval) (audioBuffer : Buffer) : M unit :=
  if negb (toString_returns chatId) then throw TypeError
  else
    response <- outbound (Fetch (SendVoice chatId audioBuffer))
                         (fetch w (SendVoice chatId audioBuffer)) ;;
    if negb (Response.ok response) then
      errorData <- await (Response.json response) ;;
      throw (Error [Lit (lit "Failed to send voice: "); Stringified errorData])
    else ret tt.

(** Lines 139-145. *)
Definition sendMessageToTelegram (chatId : jsval) (text : jsstring) : M unit :=
  _ <- outbound (Fetch (SendMessage chatId text)) (fetch w (SendMessage chatId text)) ;;
  ret tt.

(** [NextResponse.json(payload, {status})]. *)
Record NextResponse : Type := { status : Z; payload : jsval }.

Definition OK_200 : NextResponse :=
  {| status := 200; payload := JObj [(lit "ok", JBool true)] |}.

Definition ERROR_500 : NextResponse :=
  {| status := 500;
     payload := JObj [(lit "ok", JBool false);
                      (lit "error", JStr (lit "Internal server error"))] |}.

(** Lines 158-159: [!message || !message.voice]. *)
Definition not_voice (message : jsval) : M bool :=
  if negb (truthy message) then ret true
  else voice <- get message "voice" ;; ret (negb (truthy voice)).

(** Lines 152-199: the body of the [try]. *)
Definition POST_try : M NextResponse :=
  body <- request_json ;;
  console_log [Lit (lit "Received Telegram update:"); Stringified body] ;;
  message <- get body "message" ;;
  skip <- not_voice message ;;
  if (skip : bool) then
    console_log [Lit (lit "Not a voice message, skipping...")] ;;
    ret OK_200
  else
    chat <- get message "chat" ;;
    chatId <- get chat "id" ;;
    voice <- get message "voice" ;;
    fileId <- get voice "file_id" ;;
    console_log [Lit (lit "Processing voice message from chat "); Interp chatId;
                 Lit (lit ", file_id: "); Interp fileId] ;;
    filePath <- getTelegramFilePath fileId ;;
    console_log [Lit (lit "File path: "); Interp filePath] ;;
    audioBuffer <- downloadTelegramFile filePath ;;
    console_log [Lit (lit "Downloaded audio: "); Lit (lit " bytes")] ;;
    transcribedText <- transcribeAudio audioBuffer ;;
    console_log [Lit (lit "Transcription: "); Interp (JStr transcribedText)] ;;
    if negb (truthy (JStr transcribedText)) || jsstring_eqb (trim transcribedText) [] then
      sendMessageToTelegram chatId NOT_UNDERSTOOD ;;
      ret OK_200
    else
      tutorResponse <- getTutorResponse transcribedText ;;
      console_log [Lit (lit "Tutor response: "); Interp (JStr tutorResponse)] ;;
      speechBuffer <- generateSpeech tutorResponse ;;
      console_log [Lit (lit "Generated speech: "); Lit (lit " bytes")] ;;
      sendVoiceToTelegram chatId speechBuffer ;;
      console_log [Lit (lit "Voice response sent successfully!")] ;;
      ret OK_200.

(** Lines 206-212: the body of the inner [try]. *)
Definition notify_user : M unit :=
  clone <- request_clone ;;
  body <- await (snd (Request.json clone)) ;;
  let id := prop (prop (prop body "message") "chat") "id" in   (* body?.message?.chat?.id *)
  if truthy id then sendMessageToTelegram id APOLOGY else ret tt.

(** Lines 201-218: the [catch] block. *)
Definition POST_catch (error : Thrown) : M NextResponse :=
  console_log [Lit (lit "Error processing webhook:")] ;;
  try_catch notify_user (fun _ => ret tt) ;;
  ret ERROR_500.

(** Lines 150-219. *)
Definition POST : M NextResponse := try_catch POST_try POST_catch.

(** Lines 222-224. *)
Definition GET : NextResponse :=
  {| status := 200;
     payload := JObj [(lit "status", JStr (lit "LinguaTutor Bot webhook is active"))] |}.

End Handler.

(** One invocation on [req]: the final state and what [POST] settles to. *)
Definition handle (w : World) (req : Request.t) : State * Result NextResponse :=
  POST w {| request := req; calls := [] |}.

(* ================================================================== *)
(** ** Concrete worlds and events *)

Module Scenario.

Definition replied (data : jsval) : Response.t :=
  {| Response.ok := true; Response.statusText := lit "OK";
     Response.json := Ok data; Response.arrayBuffer := Ok [] |}.

Definition refused (statusText : string) (data : jsval) : Response.t :=
  {| Response.ok := false; Response.statusText := lit statusText;
     Response.json := Ok data; Response.arrayBuffer := Ok [] |}.

Definition nine_bytes : Buffer := [x4f; x67; x67; x53; x00; x02; x00; x00; x00].

Definition downloaded (bytes : Buffer) : Response.t :=
  {| Response.ok := true; Response.statusText := lit "OK";
     Response.json := Throw SyntaxError; Response.arrayBuffer := Ok bytes |}.

Definition found : jsval :=
  JObj [(lit "ok", JBool true);
        (lit "result", JObj [(lit "file_path", JStr (lit "voice/abc.oga"))])].

Definition not_found : jsval :=
  JObj [(lit "ok", JBool false); (lit "description", JStr (lit "file not found"))].

Definition sent : jsval := JObj [(lit "ok", JBool true)].

Definition one_choice (text : string) : ChatCompletion :=
  {| choices := [ {| message := Some {| content := Some (lit text) |} |} ] |}.

Definition greeting : string := "Hi! How can I help you practice English?".

(** The round trip of the specification: metadata found, nine bytes
    downloaded, the given transcript, one completion, a stream of two
    chunks. *)
Definition round_trip (transcript : string) (stream : Readable) : World :=
  {| fetch := fun r =>
       match r with
       | GetFile _ => Ok (replied found)
       | FileDownload _ => Ok (downloaded nine_bytes)
       | SendVoice _ _ | SendMessage _ _ => Ok (replied sent)
       end;
     transcriptions_create := fun _ => Ok (lit transcript);
     completions_create := fun _ => Ok (one_choice greeting);
     setMetadata := fun _ _ => Ok tt;
     toStream := fun _ => Ok stream |}.

Definition two_chunks : Readable := Data [x01; x02] (Data [x03] End_).

Definition breaks_mid_stream : Readable :=
  Data [x01; x02] (Err (Fault (lit "socket closed"))).

(** The same world with the metadata capability answering
    [{ok:false, description:"file not found"}]. *)
Definition metadata_fails : World :=
  {| fetch := fun r =>
       match r with
       | GetFile _ => Ok (refused "Bad Request" not_found)
       | FileDownload _ => Ok (downloaded nine_bytes)
       | SendVoice _ _ | SendMessage _ _ => Ok (replied sent)
       end;
     transcriptions_create := fun _ => Ok (lit "hello");
     completions_create := fun _ => Ok (one_choice greeting);
     setMetadata := fun _ _ => Ok tt;
     toStream := fun _ => Ok two_chunks |}.

(** A world whose generation capability answers [completion]. *)
Definition answering (completion : ChatCompletion) : World :=
  {| fetch := fun _ => Ok (replied sent);
     transcriptions_create := fun _ => Ok (lit "hello");
     completions_create := fun _ => Ok completion;
     setMetadata := fun _ _ => Ok tt;
     toStream := fun _ => Ok two_chunks |}.

(** A world in which every service is down. *)
Definition offline : World :=
  {| fetch := fun _ => Throw TypeError;
     transcriptions_create := fun _ => Throw (Fault (lit "offline"));
     completions_create := fun _ => Throw (Fault (lit "offline"));
     setMetadata := fun _ _ => Throw (Fault (lit "offline"));
     toStream := fun _ => Throw (Fault (lit "offline")) |}.

(** [{message: {chat: {id: 42}, voice: ...}}]. *)
Definition update (voice : jsval) : jsval :=
  JObj [(lit "update_id", JNum 1%float);
        (lit "message",
         JObj [(lit "chat", JObj [(lit "id", JNum 42%float)]);
               (lit "voice", voice)])].

Definition voice_update : jsval :=
  update (JObj [(lit "file_id", JStr (lit "abc")); (lit "duration", JNum 3%float)]).

(** A text message: no [voice]. *)
Definition text_update : jsval :=
  JObj [(lit "update_id", JNum 2%float);
        (lit "message",
         JObj [(lit "chat", JObj [(lit "id", JNum 42%float)]);
               (lit "text", JStr (lit "hi"))])].

(** A voice whose [file_id] is missing, and one whose [file_id] is empty. *)
Definition voice_without_file_id : jsval := update (JObj []).
Definition voice_with_empty_file_id : jsval :=
  update (JObj [(lit "file_id", JStr [])]).

(** A voice message with no [chat]. *)
Definition voice_without_chat : jsval :=
  JObj [(lit "message", JObj [(lit "voice", JObj [(lit "file_id", JStr (lit "abc"))])])].

End Scenario.

(* ================================================================== *)
(** ** The vocabulary of the properties *)

(** The state a delivery starts in, and the request once its body is read. *)
Definition arrives (body : jsval) : State :=
  {| request := Request.incoming body; calls := [] |}.

Definition consumed (body : jsval) : Request.t :=
  {| Request.body := Some (Request.Parses body); Request.disturbed := true |}.

(** The guard of lines 158-159 as a value: [message && message.voice] is
    truthy. *)
Definition passes_guard (body : jsval) : bool :=
  truthy (prop body "message") && truthy (prop (prop body "message") "voice").

(** The handler short-circuits: no call, and the 200 acknowledgement. *)
Definition short_circuits (w : World) (body : jsval) : Prop :=
  handle w (Request.incoming body)
  = ({| request := consumed body; calls := [] |}, Ok OK_200).

(** The ingress condition in the words of the specification: the event
    carries a [message] containing a non-null [voice] with a non-empty
    file identifier. *)
Definition spec_actionable (body : jsval) : bool :=
  let voice := prop (prop body "message") "voice" in
  negb (nullish voice)
  && match prop voice "file_id" with
     | JStr (_ :: _) => true
     | _ => false
     end.

(** [message.chat.id] and [message.voice.file_id] of an update. *)
Definition chat_id (body : jsval) : jsval :=
  prop (prop (prop body "message") "chat") "id".

Definition file_id (body : jsval) : jsval :=
  prop (prop (prop body "message") "voice") "file_id".

(** A voice update that reaches the metadata fetch: it passes the guard,
    has a [chat], and its two identifiers convert to text for the log
    line 168. *)
Definition voice_event (body : jsval) : bool :=
  passes_guard body
  && negb (nullish (prop (prop body "message") "chat"))
  && printable (chat_id body) && printable (file_id body).

(** The metadata capability answers [{ok: true, result: {file_path}}]. *)
Definition metadata_resolves (w : World) (fileId filePath : jsval) : Prop :=
  exists response data,
    fetch w (GetFile fileId) = Ok response
    /\ Response.json response = Ok data
    /\ truthy (prop data "ok") = true
    /\ nullish (prop data "result") = false
    /\ prop (prop data "result") "file_path" = filePath
    /\ printable filePath = true.

(** The download answers 2xx with the bytes [audio]. *)
Definition download_resolves (w : World) (filePath : jsval) (audio : Buffer) : Prop :=
  exists response,
    fetch w (FileDownload filePath) = Ok response
    /\ Response.ok response = true
    /\ Response.arrayBuffer response = Ok audio.

(** The first choice carries text: [choices[0]?.message?.content] is a
    non-empty string. *)
Definition has_content (completion : ChatCompletion) : bool :=
  match first_content completion with
  | Some (_ :: _) => true
  | Some [] | None => false
  end.

(** A stream that emits [chunks] in order and then closes with [closing]. *)
Definition emits (chunks : list Buffer) (closing : Readable) : Readable :=
  fold_right Data closing chunks.

Definition is_voice (c : Call) : bool :=
  match c with Fetch (SendVoice _ _) => true | _ => false end.

Definition is_text (c : Call) : bool :=
  match c with Fetch (SendMessage _ _) => true | _ => false end.

(** The voice messages and the texts sent to Telegram among the calls [l]. *)
Definition voices (l : list Call) : nat := List.length (filter is_voice l).
Definition texts (l : list Call) : nat := List.length (filter is_text l).

(** [footprint n m]: [m] leaves the request object alone and only appends
    to the log, at most [n] sends to Telegram among what it appends. *)
Definition footprint {A} (n : nat) (m : M A) : Prop :=
  forall s,
    request (fst (m s)) = request s
    /\ exists l, calls (fst (m s)) = calls s ++ l /\ voices l + texts l <= n.

(** [returns P m]: whatever [m] returns satisfies [P]. *)
Definition returns {A} (P : A -> Prop) (m : M A) : Prop :=
  forall s a, snd (m s) = Ok a -> P a.

(** The stage a call belongs to. *)
Inductive Stage : Type :=
| MetadataFetch | Download | Transcription | Generation
| VoiceSetup | Synthesis | VoiceDelivery | TextDelivery.

Definition stage (c : Call) : Stage :=
  match c with
  | Fetch (GetFile _) => MetadataFetch
  | Fetch (FileDownload _) => Download
  | Transcribe _ => Transcription
  | Complete _ => Generation
  | SetMetadata _ _ => VoiceSetup
  | ToStream _ => Synthesis
  | Fetch (SendVoice _ _) => VoiceDelivery
  | Fetch (SendMessage _ _) => TextDelivery
  end.

(** The two complete runs of the pipeline, stage by stage: the reply by
    voice, and the notice after a blank transcript. *)
Definition voice_run : list Stage :=
  [MetadataFetch; Download; Transcription; Generation; VoiceSetup; Synthesis;
   VoiceDelivery].

Definition notice_run : list Stage :=
  [MetadataFetch; Download; Transcription; TextDelivery].

(** Telegram took the send: the [sendVoice] request was answered 2xx; the
    [sendMessage] request was answered (its status is not read, line 140). *)
Definition accepted (w : World) (c : Call) : Prop :=
  match c with
  | Fetch (SendVoice chatId audio) =>
      exists response,
        fetch w (SendVoice chatId audio) = Ok response
        /\ Response.ok response = true
  | Fetch (SendMessage chatId text) =>
      exists response, fetch w (SendMessage chatId text) = Ok response
  | _ => False
  end.

(** The service rejected the call (the promise of the call rejects, or
    the call throws). *)
Definition rejected (w : World) (c : Call) : Prop :=
  match c with
  | Fetch r => exists e, fetch w r = Throw e
  | Transcribe p => exists e, transcriptions_create w p = Throw e
  | Complete p => exists e, completions_create w p = Throw e
  | SetMetadata voice format => exists e, setMetadata w voice format = Throw e
  | ToStream text => exists e, toStream w text = Throw e
  end.

(** [{message: {chat: {}, voice: {file_id: "abc"}}}]: a chat with no [id]. *)
Definition chat_without_id : jsval :=
  JObj [(lit "message",
         JObj [(lit "chat", JObj []);
               (lit "voice", JObj [(lit "file_id", JStr (lit "abc"))])])].

(** A metadata reply [{ok: true, result: {}}]: no [file_path]. *)
Definition found_without_path : jsval :=
  JObj [(lit "ok", JBool true); (lit "result", JObj [])].

(** A world whose metadata capability answers [data] and whose other
    services are those of the round trip. *)
Definition metadata_answers (data : jsval) : World :=
  {| fetch := fun r =>
       match r with
       | GetFile _ => Ok (Scenario.replied data)
       | _ => fetch (Scenario.round_trip "hello" Scenario.two_chunks) r
       end;
     transcriptions_create := fun _ => Ok (lit "hello");
     completions_create := fun _ => Ok (Scenario.one_choice Scenario.greeting);
     setMetadata := fun _ _ => Ok tt;
     toStream := fun _ => Ok Scenario.two_chunks |}.

(** The round trip with Telegram refusing the download (404) or the voice
    (400, with an error body). *)
Definition telegram_refuses : World :=
  {| fetch := fun r =>
       match r with
       | GetFile _ => Ok (Scenario.replied Scenario.found)
       | FileDownload _ => Ok (Scenario.refused "Not Found" JNull)
       | SendVoice _ _ => Ok (Scenario.refused "Bad Request" Scenario.not_found)
       | SendMessage _ _ => Ok (Scenario.replied Scenario.sent)
       end;
     transcriptions_create := fun _ => Ok (lit "hello");
     completions_create := fun _ => Ok (Scenario.one_choice Scenario.greeting);
     setMetadata := fun _ _ => Ok tt;
     toStream := fun _ => Ok Scenario.two_chunks |}.

(* ================================================================== *)
(** * Properties *)

(** ** Strings *)

Lemma jsstring_eqb_nil (s : jsstring) : jsstring_eqb s [] = true <-> s = [].
Proof. destruct s; cbn; split; congruence. Qed.

Lemma trimStart_blank (s : jsstring) : blank s = true -> trimStart s = [].
Proof.
  induction s as [|c s IH]; cbn; [reflexivity|].
  intros H. apply andb_prop in H as [Hc Hs]. rewrite Hc. auto.
Qed.

Lemma trimStart_head (s : jsstring) c r : trimStart s = c :: r -> stripped c = false.
Proof.
  induction s as [|d s IH]; cbn; [discriminate|].
  destruct (stripped d) eqn:Hd; [exact IH|].
  intros E. injection E as -> _. exact Hd.
Qed.

Lemma trimStart_nil (s : jsstring) : trimStart s = [] -> blank s = true.
Proof.
  induction s as [|c s IH]; cbn; [reflexivity|].
  destruct (stripped c); [auto | discriminate].
Qed.

Lemma rev_nil {A} (l : list A) : rev l = [] -> l = [].
Proof. intros H. rewrite <- (rev_involutive l), H. reflexivity. Qed.

(** [s.trim() === ''] exactly when [s] is empty or whitespace-only. *)
Lemma trim_empty_iff_blank (s : jsstring) :
  jsstring_eqb (trim s) [] = blank s.
Proof.
  destruct (blank s) eqn:B.
  - apply jsstring_eqb_nil. unfold trim, trimEnd.
    rewrite (trimStart_blank _ B). reflexivity.
  - destruct (jsstring_eqb (trim s) []) eqn:E; [|reflexivity].
    apply jsstring_eqb_nil in E. unfold trim, trimEnd in E.
    apply rev_nil, trimStart_nil in E.
    destruct (trimStart s) as [|c r] eqn:T.
    + apply trimStart_nil in T. congruence.
    + pose proof (trimStart_head _ T) as Hc.
      unfold blank in E. rewrite forallb_forall in E.
      rewrite (E c) in Hc; [discriminate|].
      apply in_rev. rewrite rev_involutive. left. reflexivity.
Qed.

(** The test of line 182. *)
Lemma empty_transcript_test (t : jsstring) :
  negb (truthy (JStr t)) || jsstring_eqb (trim t) [] = blank t.
Proof.
  rewrite trim_empty_iff_blank. destruct t; reflexivity.
Qed.

(** ** Values *)

Lemma truthy_not_nullish (v : jsval) : truthy v = true -> nullish v = false.
Proof. destruct v; cbn; congruence. Qed.

Lemma prop_truthy_object (v : jsval) (k : string) :
  truthy (prop v k) = true -> nullish v = false.
Proof. destruct v; cbn; congruence. Qed.

(** ** The request *)

(** Once [json()] has been called on a request, [clone()] throws or the
    clone has nothing to parse: the second read never yields a body. *)
Lemma no_second_read (r : Request.t) :
  match Request.clone (fst (Request.json r)) with
  | Ok c => exists e, snd (Request.json c) = Throw e
  | Throw _ => True
  end.
Proof.
  destruct r as [[b|] d]; unfold Request.json, Request.clone, Request.unusable; cbn.
  - destruct d; cbn; exact I.
  - exists SyntaxError. reflexivity.
Qed.

(** ** Running the handler *)

#[local] Arguments truthy : simpl never.
#[local] Arguments nullish : simpl never.
#[local] Arguments printable : simpl never.
#[local] Arguments prop : simpl never.
#[local] Arguments trim : simpl never.
#[local] Arguments jsstring_eqb : simpl never.
#[local] Arguments lit : simpl never.
#[local] Arguments bind : simpl never.
#[local] Arguments try_catch : simpl never.
#[local] Arguments getTelegramFilePath : simpl never.
#[local] Arguments downloadTelegramFile : simpl never.
#[local] Arguments transcribeAudio : simpl never.
#[local] Arguments getTutorResponse : simpl never.
#[local] Arguments generateSpeech : simpl never.
#[local] Arguments sendVoiceToTelegram : simpl never.
#[local] Arguments sendMessageToTelegram : simpl never.
#[local] Arguments POST_catch : simpl never.

Lemma bind_unfold {A B} (m : M A) (k : A -> M B) (s : State) :
  bind m k s
  = match m s with
    | (s', Ok a) => k a s'
    | (s', Throw e) => (s', Throw e)
    end.
Proof. reflexivity. Qed.

Lemma try_catch_unfold {A} (m : M A) (h : Thrown -> M A) (s : State) :
  try_catch m h s
  = match m s with
    | (s', Ok a) => (s', Ok a)
    | (s', Throw e) => h e s'
    end.
Proof. reflexivity. Qed.

Lemma console_log_run (m : list Piece) (s : State) :
  console_log m s
  = (s, if forallb converts m then Ok tt else Throw TypeError).
Proof.
  unfold console_log, template. rewrite bind_unfold.
  destruct (forallb converts m); reflexivity.
Qed.

Lemma get_run (v : jsval) (k : string) (s : State) :
  get v k s = (s, if nullish v then Throw TypeError else Ok (prop v k)).
Proof. unfold get. destruct (nullish v); reflexivity. Qed.

Lemma template_run (m : list Piece) (s : State) :
  template m s = (s, if forallb converts m then Ok m else Throw TypeError).
Proof. unfold template. destruct (forallb converts m); reflexivity. Qed.

(** One statement of the source: open the leading [bind] and evaluate. *)
Ltac step :=
  rewrite bind_unfold; rewrite ?console_log_run, ?get_run, ?template_run; cbn.

(** Every way a helper can go, one case per branch of the source. *)
Ltac branches :=
  repeat (try step;
          match goal with
          | |- context [if ?b then _ else _] => destruct b eqn:?
          | |- context [match ?x with _ => _ end] => destruct x eqn:?
          end; cbn).
Ltac step_by H := step; rewrite H; cbn.

Lemma not_voice_value (message : jsval) (s : State) :
  not_voice message s
  = (s, Ok (negb (truthy message && truthy (prop message "voice")))).
Proof.
  unfold not_voice.
  destruct (truthy message) eqn:T; cbn; [|reflexivity].
  step_by (truthy_not_nullish _ T). reflexivity.
Qed.

Lemma not_voice_guard (body : jsval) (s : State) :
  not_voice (prop body "message") s = (s, Ok (negb (passes_guard body))).
Proof. apply not_voice_value. Qed.

Lemma passes_guard_parts (body : jsval) :
  passes_guard body = true ->
  nullish body = false
  /\ truthy (prop body "message") = true
  /\ nullish (prop body "message") = false
  /\ truthy (prop (prop body "message") "voice") = true
  /\ nullish (prop (prop body "message") "voice") = false.
Proof.
  unfold passes_guard. intros G. apply andb_prop in G as [Tm Tv].
  repeat split; auto using truthy_not_nullish.
  exact (prop_truthy_object _ _ Tm).
Qed.

(** Lines 152-159 on a body that is not [null]: the body is read and the
    guard evaluated. *)
Ltac to_guard N :=
  unfold POST_try, arrives;
  step; step; step_by N;
  rewrite bind_unfold, not_voice_guard; cbn.

(** The same when the guard lets the event through: what remains is lines
    165-199. *)
Ltac pass_guard_as G N Nm Nv :=
  pose proof (passes_guard_parts _ G) as (N & _ & Nm & _ & Nv);
  to_guard N; rewrite G; cbn.

Ltac pass_guard G :=
  let N := fresh "N" in let Nm := fresh "Nm" in let Nv := fresh "Nv" in
  pass_guard_as G N Nm Nv.

(** The handler on an event the guard turns away. *)
Lemma POST_skips (w : World) (body : jsval) :
  nullish body = false ->
  passes_guard body = false ->
  handle w (Request.incoming body)
  = ({| request := consumed body; calls := [] |}, Ok OK_200).
Proof.
  intros N G. unfold handle, POST. rewrite try_catch_unfold.
  fold (arrives body). to_guard N. rewrite G. cbn. reflexivity.
Qed.

(** The catch block once the body has been read: [request.clone()] throws,
    the inner catch swallows it, and the answer is the 500. *)
Lemma POST_catch_after_read (w : World) (body : jsval) (log : list Call) (e : Thrown) :
  POST_catch w e {| request := consumed body; calls := log |}
  = ({| request := consumed body; calls := log |}, Ok ERROR_500).
Proof.
  unfold POST_catch. step.
  rewrite bind_unfold, try_catch_unfold. unfold notify_user.
  rewrite bind_unfold. reflexivity.
Qed.

(** C10: a voice message with no [chat] throws at [message.chat.id]
    (line 165) before any outbound call; the top-level catch answers 500
    with [{ok:false, error:"Internal server error"}].  ([voice] is the
    truthy value that passes the guard; a [chat] that is [null] throws
    the same way as a missing one.) *)
Theorem voice_without_chat_answers_500 (w : World) (body : jsval) :
  passes_guard body = true ->
  nullish (prop (prop body "message") "chat") = true ->
  POST_try w (arrives body)
  = ({| request := consumed body; calls := [] |}, Throw TypeError)
  /\ handle w (Request.incoming body)
     = ({| request := consumed body; calls := [] |}, Ok ERROR_500).
Proof.
  intros G C.
  assert (E : POST_try w (arrives body)
              = ({| request := consumed body; calls := [] |}, Throw TypeError)).
  { pass_guard G. step_by Nm. step_by C. reflexivity. }
  split; [exact E|].
  unfold handle, POST. rewrite try_catch_unfold. fold (arrives body). rewrite E.
  apply POST_catch_after_read.
Qed.

Lemma voice_without_chat_answers_500_witness :
  POST_try Scenario.offline (arrives Scenario.voice_without_chat)
  = ({| request := consumed Scenario.voice_without_chat; calls := [] |}, Throw TypeError)
  /\ handle Scenario.offline (Request.incoming Scenario.voice_without_chat)
     = ({| request := consumed Scenario.voice_without_chat; calls := [] |}, Ok ERROR_500).
Proof.
  apply (voice_without_chat_answers_500 Scenario.offline Scenario.voice_without_chat);
    reflexivity.
Defined.

(** C2: an event with no [message], or whose [message] has no [voice],
    makes no outbound call at all and is answered 200 [{ok: true}],
    whatever the services would have said. *)
Theorem non_voice_event_is_acknowledged (w : World) (body : jsval) :
  nullish body = false ->
  prop body "message" = JUndefined \/ prop (prop body "message") "voice" = JUndefined ->
  handle w (Request.incoming body)
  = ({| request := consumed body; calls := [] |}, Ok OK_200).
Proof.
  intros N H. apply POST_skips; [exact N|].
  unfold passes_guard. destruct H as [H|H]; rewrite H.
  - reflexivity.
  - apply andb_false_r.
Qed.

Lemma non_voice_event_is_acknowledged_witness :
  handle Scenario.offline (Request.incoming Scenario.text_update)
  = ({| request := consumed Scenario.text_update; calls := [] |}, Ok OK_200).
Proof.
  apply (non_voice_event_is_acknowledged Scenario.offline Scenario.text_update).
  - reflexivity.
  - right. reflexivity.
Defined.

(** C1, as stated, fails: a voice with no [file_id], or with an empty one,
    is not actionable in the specification's sense, yet the handler does
    not short-circuit: it asks the metadata capability for the file
    [undefined], or for the file with the empty name. *)
Lemma file_id_is_not_inspected :
  spec_actionable Scenario.voice_without_file_id = false
  /\ ~ short_circuits Scenario.metadata_fails Scenario.voice_without_file_id
  /\ handle Scenario.metadata_fails (Request.incoming Scenario.voice_without_file_id)
     = ({| request := consumed Scenario.voice_without_file_id;
           calls := [Fetch (GetFile JUndefined)] |}, Ok ERROR_500)
  /\ spec_actionable Scenario.voice_with_empty_file_id = false
  /\ handle Scenario.metadata_fails (Request.incoming Scenario.voice_with_empty_file_id)
     = ({| request := consumed Scenario.voice_with_empty_file_id;
           calls := [Fetch (GetFile (JStr []))] |}, Ok ERROR_500).
Proof.
  split; [reflexivity|]. split; [|repeat split; reflexivity].
  unfold short_circuits. vm_compute. discriminate.
Qed.

(* ================================================================== *)
(** ** What a computation may do to the state *)

Lemma voices_app l l' : voices (l ++ l') = voices l + voices l'.
Proof. unfold voices. rewrite filter_app, length_app. reflexivity. Qed.

Lemma texts_app l l' : texts (l ++ l') = texts l + texts l'.
Proof. unfold texts. rewrite filter_app, length_app. reflexivity. Qed.

Section Footprint.

Context {A B : Type}.

Lemma footprint_silent (m : M A) n :
  (forall s, fst (m s) = s) -> footprint n m.
Proof.
  intros H s. rewrite H. split; [reflexivity|].
  exists []. rewrite app_nil_r. split; [reflexivity | cbn; lia].
Qed.

Lemma footprint_ret (a : A) n : footprint n (ret a).
Proof. apply footprint_silent. reflexivity. Qed.

Lemma footprint_throw (e : Thrown) n : footprint n (throw e : M A).
Proof. apply footprint_silent. reflexivity. Qed.

Lemma footprint_await (r : Result A) n : footprint n (await r).
Proof. apply footprint_silent. reflexivity. Qed.

Lemma footprint_outbound (c : Call) (r : Result A) n :
  voices [c] + texts [c] <= n -> footprint n (outbound c r).
Proof.
  intros H s. split; [reflexivity|]. exists [c]. split; [reflexivity | exact H].
Qed.

Lemma footprint_bind (m : M A) (k : A -> M B) n p :
  footprint n m -> (forall a, footprint p (k a)) -> footprint (n + p) (bind m k).
Proof.
  intros Hm Hk s. rewrite bind_unfold.
  destruct (Hm s) as (R & l & C & S).
  destruct (m s) as [s1 [a|e]]; cbn in *.
  - destruct (Hk a s1) as (R' & l' & C' & S').
    split; [congruence|]. exists (l ++ l').
    rewrite C', C, app_assoc, voices_app, texts_app. split; [reflexivity | lia].
  - split; [exact R|]. exists l. split; [exact C | lia].
Qed.

Lemma footprint_then (m : M A) (k : A -> M B) n :
  footprint 0 m -> (forall a, footprint n (k a)) -> footprint n (bind m k).
Proof. intros Hm Hk. exact (footprint_bind k Hm Hk). Qed.

Lemma footprint_last (m : M A) (k : A -> M B) n :
  footprint n m -> (forall a, footprint 0 (k a)) -> footprint n (bind m k).
Proof.
  intros Hm Hk s. destruct (footprint_bind k Hm Hk s) as (R & l & C & S).
  split; [exact R|]. exists l. split; [exact C | lia].
Qed.

Lemma footprint_if (c : bool) (m m' : M A) n :
  footprint n m -> footprint n m' -> footprint n (if c then m else m').
Proof. destruct c; auto. Qed.

Lemma returns_ret (P : A -> Prop) (a : A) : P a -> returns P (ret a).
Proof. intros H s a' E. cbn in E. congruence. Qed.

Lemma returns_throw (P : A -> Prop) (e : Thrown) : returns P (throw e).
Proof. intros s a E. discriminate E. Qed.

Lemma returns_bind (P : B -> Prop) (m : M A) (k : A -> M B) :
  (forall a, returns P (k a)) -> returns P (bind m k).
Proof.
  intros H s b. rewrite bind_unfold.
  destruct (m s) as [s1 [a|e]]; cbn; [apply H | discriminate].
Qed.

Lemma returns_if (P : A -> Prop) (c : bool) (m m' : M A) :
  returns P m -> returns P m' -> returns P (if c then m else m').
Proof. destruct c; auto. Qed.

End Footprint.

Lemma footprint_get (v : jsval) (k : string) n : footprint n (get v k).
Proof. apply footprint_silent. intros s. rewrite get_run. reflexivity. Qed.

Lemma footprint_console_log (m : list Piece) n : footprint n (console_log m).
Proof. apply footprint_silent. intros s. rewrite console_log_run. reflexivity. Qed.

Lemma footprint_template (m : list Piece) n : footprint n (template m).
Proof.
  apply footprint_silent. intros s. unfold template.
  destruct (forallb converts m); reflexivity.
Qed.

Lemma footprint_not_voice (message : jsval) n : footprint n (not_voice message).
Proof. apply footprint_silent. intros s. rewrite not_voice_value. reflexivity. Qed.

(** Syntax-directed proofs of [footprint 0 _] and [footprint 1 _]. *)
Ltac quiet :=
  repeat first
    [ apply footprint_ret | apply footprint_throw | apply footprint_await
    | apply footprint_get | apply footprint_console_log
    | apply footprint_template | apply footprint_not_voice
    | apply footprint_outbound; cbn; lia
    | apply footprint_if
    | apply footprint_then; [|intro] ].

Section Helpers.

Variable w : World.

Lemma footprint_getTelegramFilePath fileId : footprint 0 (getTelegramFilePath w fileId).
Proof. unfold getTelegramFilePath. quiet. Qed.

Lemma footprint_downloadTelegramFile filePath :
  footprint 0 (downloadTelegramFile w filePath).
Proof. unfold downloadTelegramFile. quiet. Qed.

Lemma footprint_transcribeAudio audio : footprint 0 (transcribeAudio w audio).
Proof. unfold transcribeAudio. quiet. Qed.

Lemma footprint_getTutorResponse text : footprint 0 (getTutorResponse w text).
Proof. unfold getTutorResponse. quiet. Qed.

Lemma footprint_generateSpeech text : footprint 0 (generateSpeech w text).
Proof. unfold generateSpeech. quiet. Qed.

Lemma footprint_sendVoiceToTelegram chatId audio :
  footprint 1 (sendVoiceToTelegram w chatId audio).
Proof.
  unfold sendVoiceToTelegram. apply footprint_if; [quiet|].
  apply footprint_last; [apply footprint_outbound; cbn; lia | intro; quiet].
Qed.

Lemma footprint_sendMessageToTelegram chatId text :
  footprint 1 (sendMessageToTelegram w chatId text).
Proof.
  unfold sendMessageToTelegram.
  apply footprint_last; [apply footprint_outbound; cbn; lia | intro; quiet].
Qed.

End Helpers.

(** A statement with no send to Telegram, then the rest. *)
Ltac pure_step :=
  apply footprint_then;
  [ first [ apply footprint_getTelegramFilePath
          | apply footprint_downloadTelegramFile
          | apply footprint_transcribeAudio
          | apply footprint_getTutorResponse
          | apply footprint_generateSpeech
          | solve [quiet] ]
  | intro ].

(** The one send of a branch, followed by statements that send nothing. *)
Ltac send_step :=
  apply footprint_last;
  [ first [ apply footprint_sendMessageToTelegram
          | apply footprint_sendVoiceToTelegram ]
  | intro; solve [quiet] ].

(** Any suffix of lines 155-199 sends at most once. *)
Ltac bounded :=
  repeat first [ pure_step | apply footprint_if | send_step | solve [quiet] ].

Ltac returns_ok :=
  repeat first [ apply returns_bind; intro | apply returns_if
               | apply returns_ret; reflexivity | apply returns_throw ].

(** The body of the [try]: the request is read once and then left alone,
    at most one send is logged, and the only value returned is the 200. *)
Lemma POST_try_summary (w : World) (s : State) :
  request (fst (POST_try w s)) = fst (Request.json (request s))
  /\ (exists l, calls (fst (POST_try w s)) = calls s ++ l /\ voices l + texts l <= 1)
  /\ (forall a, snd (POST_try w s) = Ok a -> a = OK_200).
Proof.
  unfold POST_try.
  lazymatch goal with
  | |- context [bind request_json ?k] => set (rest := k)
  end.
  assert (F : forall body, footprint 1 (rest body))
    by (intro; subst rest; cbn beta; bounded).
  assert (R : forall body, returns (fun a => a = OK_200) (rest body))
    by (intro; subst rest; cbn beta; returns_ok).
  clearbody rest.
  rewrite bind_unfold. unfold request_json.
  destruct (Request.json (request s)) as [r' [body|e]]; cbn.
  - destruct (F body {| request := r'; calls := calls s |}) as (Q & l & C & S).
    split; [exact Q|]. split; [exists l; auto|]. apply R.
  - split; [reflexivity|]. split; [|discriminate].
    exists []. rewrite app_nil_r. split; [reflexivity | cbn; lia].
Qed.

(** The catch block after [request.json()] has been called: the second
    read of lines 206 fails (see [no_second_read]), so the inner [try]
    throws before [sendMessageToTelegram]; the inner catch swallows that and
    the answer is the 500. *)
Lemma POST_catch_after_json (w : World) (e : Thrown) (s : State) (req : Request.t) :
  request s = fst (Request.json req) ->
  (exists e', notify_user w s = (s, Throw e'))
  /\ POST_catch w e s = (s, Ok ERROR_500).
Proof.
  intros H.
  assert (N : exists e', notify_user w s = (s, Throw e')).
  { unfold notify_user. rewrite bind_unfold. unfold request_clone. cbn.
    pose proof (no_second_read req) as S. rewrite <- H in S.
    destruct (Request.clone (request s)) as [c|e1]; cbn.
    - destruct S as [e2 S]. rewrite bind_unfold. cbn. rewrite S. eauto.
    - eauto. }
  split; [exact N|]. destruct N as [e' N].
  unfold POST_catch. step. rewrite bind_unfold, try_catch_unfold, N. reflexivity.
Qed.

(** The handler in terms of the body of its [try]. *)
Lemma handle_summary (w : World) (req : Request.t) :
  let s0 := {| request := req; calls := [] |} in
  handle w req
  = (fst (POST_try w s0),
     match snd (POST_try w s0) with
     | Ok _ => Ok OK_200
     | Throw _ => Ok ERROR_500
     end).
Proof.
  intros s0. unfold handle, POST. rewrite try_catch_unfold. fold s0.
  destruct (POST_try_summary w s0) as (Q & _ & R).
  destruct (POST_try w s0) as [s1 [a|e]]; cbn in *.
  - rewrite (R a eq_refl). reflexivity.
  - apply (POST_catch_after_json w e s1 req Q).
Qed.

(** C3: in one invocation, on any request and whatever the services
    answer, at most one voice message and at most one text are sent to
    Telegram, and never both: at most one send in all (so a text never
    accompanies a voice reply, delivered or refused). *)
Theorem at_most_one_send (w : World) (req : Request.t) :
  let sent := calls (fst (handle w req)) in
  voices sent <= 1 /\ texts sent <= 1 /\ voices sent + texts sent <= 1.
Proof.
  intros sent. subst sent. rewrite handle_summary. cbn.
  destruct (POST_try_summary w {| request := req; calls := [] |}) as (_ & (l & C & S) & _).
  rewrite C. cbn [calls app]. lia.
Qed.

(** C9: [POST] always settles to a response, the 200 [{ok: true}] or the
    500 [{ok: false, error: "Internal server error"}], and never throws;
    it is the 200 whenever the [try] completes (event skipped, blank
    transcript notified, voice delivered), and the 500 only when the [try]
    threw, in which case the notification fallback of lines 205-212 has
    failed too. *)
Theorem POST_always_answers (w : World) (req : Request.t) :
  let s0 := {| request := req; calls := [] |} in
  (exists s r, handle w req = (s, Ok r) /\ (r = OK_200 \/ r = ERROR_500))
  /\ (forall s r, POST_try w s0 = (s, Ok r) -> handle w req = (s, Ok OK_200))
  /\ (forall s e, POST_try w s0 = (s, Throw e) ->
        handle w req = (s, Ok ERROR_500)
        /\ exists e', notify_user w s = (s, Throw e')).
Proof.
  intros s0. pose proof (handle_summary w req) as H. cbn zeta in H. fold s0 in H.
  split; [|split].
  - rewrite H. destruct (snd (POST_try w s0)); eauto.
  - intros s r E. rewrite H, E. reflexivity.
  - intros s e E. rewrite H, E. split; [reflexivity|].
    destruct (POST_try_summary w s0) as (Q & _ & _). rewrite E in Q.
    apply (POST_catch_after_json w e s req Q).
Qed.

(** The metadata fetch is the one call of [getTelegramFilePath], made
    whenever the identifier converts to text for the URL. *)
Lemma getTelegramFilePath_calls (w : World) (fileId : jsval) (s : State) :
  printable fileId = true ->
  fst (getTelegramFilePath w fileId s) = log s (Fetch (GetFile fileId)).
Proof.
  intros P. unfold getTelegramFilePath. step. rewrite P. cbn.
  branches; rewrite ?get_run; reflexivity.
Qed.

(* ================================================================== *)
(** ** The stages, when the services answer *)

Section Stages.

Variable w : World.

Lemma getTelegramFilePath_resolves fileId filePath s :
  printable fileId = true ->
  metadata_resolves w fileId filePath ->
  getTelegramFilePath w fileId s = (log s (Fetch (GetFile fileId)), Ok filePath).
Proof.
  intros P (response & data & F & J & T & N & E & _).
  unfold getTelegramFilePath. step. rewrite P. cbn.
  step_by F. step_by J. step_by (prop_truthy_object _ _ T). rewrite T. cbn.
  step_by (prop_truthy_object _ _ T). rewrite get_run, N, E. reflexivity.
Qed.

Lemma downloadTelegramFile_resolves filePath audio s :
  printable filePath = true ->
  download_resolves w filePath audio ->
  downloadTelegramFile w filePath s
  = (log s (Fetch (FileDownload filePath)), Ok audio).
Proof.
  intros P (response & F & O & B).
  unfold downloadTelegramFile. step. rewrite P. cbn.
  step_by F. rewrite O. cbn. rewrite B. reflexivity.
Qed.

Lemma transcribeAudio_run audio s :
  transcribeAudio w audio s
  = (log s (Transcribe (whisper_params audio)),
     transcriptions_create w (whisper_params audio)).
Proof. reflexivity. Qed.

Lemma getTutorResponse_run text s :
  getTutorResponse w text s
  = (log s (Complete (tutor_params text)),
     match completions_create w (tutor_params text) with
     | Ok completion => Ok (or_else (first_content completion) FALLBACK_REPLY)
     | Throw e => Throw e
     end).
Proof.
  unfold getTutorResponse. cbn zeta. step.
  destruct (completions_create w (tutor_params text)); reflexivity.
Qed.

Lemma sendMessageToTelegram_run chatId text s :
  sendMessageToTelegram w chatId text s
  = (log s (Fetch (SendMessage chatId text)),
     match fetch w (SendMessage chatId text) with
     | Ok _ => Ok tt
     | Throw e => Throw e
     end).
Proof.
  unfold sendMessageToTelegram. step.
  destruct (fetch w (SendMessage chatId text)); reflexivity.
Qed.

End Stages.

Lemma voice_event_parts (body : jsval) :
  voice_event body = true ->
  passes_guard body = true
  /\ nullish (prop (prop body "message") "chat") = false
  /\ printable (chat_id body) = true
  /\ printable (file_id body) = true.
Proof.
  unfold voice_event. intros H.
  apply andb_prop in H as [H Pf]. apply andb_prop in H as [H Pc].
  apply andb_prop in H as [G C]. apply negb_true_iff in C. auto.
Qed.

(** Lines 152-180 when the event is a voice event and the three services
    of the fetch and transcription stages answer: what remains is the test
    of line 182 on the transcript. *)
Ltac to_transcript V Hm Hd Ht :=
  let G := fresh "G" in let C := fresh "C" in
  let Pc := fresh "Pc" in let Pf := fresh "Pf" in
  let N := fresh "N" in let Nm := fresh "Nm" in let Nv := fresh "Nv" in
  let P := fresh "P" in
  pose proof (voice_event_parts _ V) as (G & C & Pc & Pf);
  unfold chat_id, file_id in *;
  pass_guard_as G N Nm Nv;
  step_by Nm; step_by C; step_by Nm; step_by Nv;
  step; rewrite Pc, Pf; cbn;
  rewrite bind_unfold, (getTelegramFilePath_resolves _ Pf Hm); cbn;
  step;
  pose proof Hm as (? & ? & _ & _ & _ & _ & _ & P); rewrite P; cbn;
  rewrite bind_unfold, (downloadTelegramFile_resolves _ P Hd); cbn;
  step;
  rewrite bind_unfold, transcribeAudio_run, Ht; cbn;
  step; change (printable (JStr ?t)) with true; cbn;
  rewrite empty_transcript_test.

(** C4: on a voice event whose audio was fetched and whose transcript is
    empty or whitespace-only, the outbound calls of the invocation are the
    metadata fetch, the download, the transcription and one [sendMessage]
    carrying the fixed "could not understand" text to [message.chat.id]:
    no generation, no synthesis, no [sendVoice].  When that [sendMessage]
    request is answered, the handler returns the 200 [{ok: true}]. *)
Theorem blank_transcript_stops_pipeline
    (w : World) (body filePath : jsval) (audio : Buffer) (text : jsstring) :
  voice_event body = true ->
  metadata_resolves w (file_id body) filePath ->
  download_resolves w filePath audio ->
  transcriptions_create w (whisper_params audio) = Ok text ->
  blank text = true ->
  calls (fst (handle w (Request.incoming body)))
  = [ Fetch (GetFile (file_id body));
      Fetch (FileDownload filePath);
      Transcribe (whisper_params audio);
      Fetch (SendMessage (chat_id body) NOT_UNDERSTOOD) ]
  /\ ((exists response,
         fetch w (SendMessage (chat_id body) NOT_UNDERSTOOD) = Ok response) ->
      snd (handle w (Request.incoming body)) = Ok OK_200).
Proof.
  intros V Hm Hd Ht B.
  assert (E : POST_try w (arrives body)
              = ({| request := consumed body;
                    calls := [ Fetch (GetFile (file_id body));
                               Fetch (FileDownload filePath);
                               Transcribe (whisper_params audio);
                               Fetch (SendMessage (chat_id body) NOT_UNDERSTOOD) ] |},
                 match fetch w (SendMessage (chat_id body) NOT_UNDERSTOOD) with
                 | Ok _ => Ok OK_200
                 | Throw e => Throw e
                 end)).
  { to_transcript V Hm Hd Ht. rewrite B. cbn.
    rewrite bind_unfold, sendMessageToTelegram_run. cbn.
    destruct (fetch w _); reflexivity. }
  unfold handle, POST. rewrite try_catch_unfold. fold (arrives body). rewrite E.
  split.
  - destruct (fetch w _); [reflexivity|]. rewrite POST_catch_after_read. reflexivity.
  - intros [response F]. rewrite F. reflexivity.
Qed.

Lemma blank_transcript_stops_pipeline_witness :
  let w := Scenario.round_trip "  " Scenario.two_chunks in
  let body := Scenario.voice_update in
  calls (fst (handle w (Request.incoming body)))
  = [ Fetch (GetFile (file_id body));
      Fetch (FileDownload (JStr (lit "voice/abc.oga")));
      Transcribe (whisper_params Scenario.nine_bytes);
      Fetch (SendMessage (chat_id body) NOT_UNDERSTOOD) ]
  /\ ((exists response,
         fetch w (SendMessage (chat_id body) NOT_UNDERSTOOD) = Ok response) ->
      snd (handle w (Request.incoming body)) = Ok OK_200).
Proof.
  apply (@blank_transcript_stops_pipeline
           (Scenario.round_trip "  " Scenario.two_chunks) Scenario.voice_update
           (JStr (lit "voice/abc.oga")) Scenario.nine_bytes (lit "  ")).
  - reflexivity.
  - exists (Scenario.replied Scenario.found), Scenario.found.
    repeat split; reflexivity.
  - exists (Scenario.downloaded Scenario.nine_bytes). repeat split; reflexivity.
  - reflexivity.
  - reflexivity.
Defined.

(* ================================================================== *)
(** ** The reply and its synthesis *)

Lemma or_else_nonempty (x : option jsstring) (fallback : jsstring) :
  fallback <> [] -> or_else x fallback <> [].
Proof. destruct x as [[|c s]|]; cbn; auto. discriminate. Qed.

Lemma FALLBACK_REPLY_nonempty : FALLBACK_REPLY <> [].
Proof. discriminate. Qed.

(** C5: when the generation capability answers, [getTutorResponse]
    returns a non-empty reply; when the answer has no completions, or a
    first completion with no content, the reply is the fixed fallback
    apology. *)
Theorem fallback_reply_when_no_content
    (w : World) (userMessage : jsstring) (completion : ChatCompletion) (s : State) :
  completions_create w (tutor_params userMessage) = Ok completion ->
  exists reply,
    snd (getTutorResponse w userMessage s) = Ok reply
    /\ reply <> []
    /\ (choices completion = [] -> reply = FALLBACK_REPLY)
    /\ (has_content completion = false -> reply = FALLBACK_REPLY).
Proof.
  intros H. rewrite getTutorResponse_run, H. cbn.
  exists (or_else (first_content completion) FALLBACK_REPLY).
  split; [reflexivity|]. split; [apply or_else_nonempty, FALLBACK_REPLY_nonempty|].
  unfold has_content, first_content. split.
  - intros ->. reflexivity.
  - destruct (nth_error (choices completion) 0) as [[[[[[|c t]|]]|]]|]; cbn;
      congruence.
Qed.

Lemma fallback_reply_when_no_content_witness :
  exists reply,
    snd (getTutorResponse
           (Scenario.answering {| choices := [] |}) (lit "hello") (arrives JNull))
    = Ok reply
    /\ reply <> []
    /\ (choices {| choices := [] |} = [] -> reply = FALLBACK_REPLY)
    /\ (has_content {| choices := [] |} = false -> reply = FALLBACK_REPLY).
Proof.
  apply (@fallback_reply_when_no_content
           (Scenario.answering {| choices := [] |}) (lit "hello") {| choices := [] |}).
  reflexivity.
Defined.

Lemma drain_emits (chunks : list Buffer) (closing : Readable) (seen : list Buffer) :
  drain seen (emits chunks closing) = drain (seen ++ chunks) closing.
Proof.
  revert seen. induction chunks as [|c chunks IH]; intros seen; cbn.
  - rewrite app_nil_r. reflexivity.
  - rewrite IH, <- app_assoc. reflexivity.
Qed.

Section Synthesis.

Variable w : World.

Lemma generateSpeech_run text s :
  generateSpeech w text s
  = match setMetadata w TTS_VOICE AUDIO_24KHZ_96KBITRATE_MONO_MP3 with
    | Ok _ =>
        (log (log s (SetMetadata TTS_VOICE AUDIO_24KHZ_96KBITRATE_MONO_MP3))
             (ToStream text),
         match toStream w text with
         | Ok readable => drain [] readable
         | Throw e => Throw e
         end)
    | Throw e =>
        (log s (SetMetadata TTS_VOICE AUDIO_24KHZ_96KBITRATE_MONO_MP3), Throw e)
    end.
Proof.
  unfold generateSpeech. cbn zeta. step.
  destruct (setMetadata w _ _); cbn; [|reflexivity].
  step. destruct (toStream w text); reflexivity.
Qed.

(** A stream that closes with ['end'] is drained to the concatenation of
    its chunks, in the order they arrived. *)
Lemma generateSpeech_drains text chunks s :
  setMetadata w TTS_VOICE AUDIO_24KHZ_96KBITRATE_MONO_MP3 = Ok tt ->
  toStream w text = Ok (emits chunks End_) ->
  generateSpeech w text s
  = (log (log s (SetMetadata TTS_VOICE AUDIO_24KHZ_96KBITRATE_MONO_MP3))
         (ToStream text),
     Ok (List.concat chunks)).
Proof.
  intros Hs Ht. rewrite generateSpeech_run, Hs, Ht, drain_emits. reflexivity.
Qed.

(** A stream that closes with ['error'] rejects with that error, whatever
    it emitted before. *)
Lemma generateSpeech_rejects text chunks err s :
  setMetadata w TTS_VOICE AUDIO_24KHZ_96KBITRATE_MONO_MP3 = Ok tt ->
  toStream w text = Ok (emits chunks (Err err)) ->
  generateSpeech w text s
  = (log (log s (SetMetadata TTS_VOICE AUDIO_24KHZ_96KBITRATE_MONO_MP3))
         (ToStream text),
     Throw err).
Proof.
  intros Hs Ht. rewrite generateSpeech_run, Hs, Ht, drain_emits. reflexivity.
Qed.

Lemma sendVoiceToTelegram_delivers chatId audio response s :
  toString_returns chatId = true ->
  fetch w (SendVoice chatId audio) = Ok response ->
  Response.ok response = true ->
  sendVoiceToTelegram w chatId audio s
  = (log s (Fetch (SendVoice chatId audio)), Ok tt).
Proof.
  intros T F O. unfold sendVoiceToTelegram. rewrite T. cbn.
  step_by F. rewrite O. reflexivity.
Qed.

End Synthesis.

(** C6: [generateSpeech] resolves with the concatenation, in arrival
    order, of every chunk of a stream that ends; and on a voice event whose
    stages all answer, the payload of the one [sendVoice] is that
    concatenation, the calls of the invocation being exactly the seven
    listed: no [sendMessage] among them. *)
Theorem voice_reply_is_the_whole_stream
    (w : World) (body filePath : jsval) (audio : Buffer) (text reply : jsstring)
    (completion : ChatCompletion) (chunks : list Buffer) (response : Response.t) :
  voice_event body = true ->
  toString_returns (chat_id body) = true ->
  metadata_resolves w (file_id body) filePath ->
  download_resolves w filePath audio ->
  transcriptions_create w (whisper_params audio) = Ok text ->
  blank text = false ->
  completions_create w (tutor_params text) = Ok completion ->
  reply = or_else (first_content completion) FALLBACK_REPLY ->
  setMetadata w TTS_VOICE AUDIO_24KHZ_96KBITRATE_MONO_MP3 = Ok tt ->
  toStream w reply = Ok (emits chunks End_) ->
  fetch w (SendVoice (chat_id body) (List.concat chunks)) = Ok response ->
  Response.ok response = true ->
  (forall text' chunks' s,
      toStream w text' = Ok (emits chunks' End_) ->
      snd (generateSpeech w text' s) = Ok (List.concat chunks'))
  /\ handle w (Request.incoming body)
     = ({| request := consumed body;
           calls := [ Fetch (GetFile (file_id body));
                      Fetch (FileDownload filePath);
                      Transcribe (whisper_params audio);
                      Complete (tutor_params text);
                      SetMetadata TTS_VOICE AUDIO_24KHZ_96KBITRATE_MONO_MP3;
                      ToStream reply;
                      Fetch (SendVoice (chat_id body) (List.concat chunks)) ] |},
        Ok OK_200).
Proof.
  intros V T Hm Hd Ht B Hc -> Hs Hr Hv Ho. split.
  - intros text' chunks' s H. rewrite (@generateSpeech_drains w text' chunks' s Hs H). reflexivity.
  - unfold handle, POST. rewrite try_catch_unfold. fold (arrives body).
    to_transcript V Hm Hd Ht. rewrite B. cbn.
    rewrite bind_unfold, getTutorResponse_run, Hc. cbn.
    step. change (printable (JStr ?t)) with true. cbn.
    rewrite bind_unfold, (@generateSpeech_drains w _ _ _ Hs Hr). cbn.
    step.
    rewrite bind_unfold, (@sendVoiceToTelegram_delivers w _ _ _ _ T Hv Ho). cbn.
    step. reflexivity.
Qed.

Lemma voice_reply_is_the_whole_stream_witness :
  let w := Scenario.round_trip "hello" Scenario.two_chunks in
  let body := Scenario.voice_update in
  (forall text' chunks' s,
      toStream w text' = Ok (emits chunks' End_) ->
      snd (generateSpeech w text' s) = Ok (List.concat chunks'))
  /\ handle w (Request.incoming body)
     = ({| request := consumed body;
           calls := [ Fetch (GetFile (JStr (lit "abc")));
                      Fetch (FileDownload (JStr (lit "voice/abc.oga")));
                      Transcribe (whisper_params Scenario.nine_bytes);
                      Complete (tutor_params (lit "hello"));
                      SetMetadata TTS_VOICE AUDIO_24KHZ_96KBITRATE_MONO_MP3;
                      ToStream (lit Scenario.greeting);
                      Fetch (SendVoice (JNum 42%float) [x01; x02; x03]) ] |},
        Ok OK_200).
Proof.
  apply (@voice_reply_is_the_whole_stream
           (Scenario.round_trip "hello" Scenario.two_chunks) Scenario.voice_update
           (JStr (lit "voice/abc.oga")) Scenario.nine_bytes (lit "hello")
           (lit Scenario.greeting) (Scenario.one_choice Scenario.greeting)
           [[x01; x02]; [x03]] (Scenario.replied Scenario.sent)).
  - reflexivity.
  - reflexivity.
  - exists (Scenario.replied Scenario.found), Scenario.found.
    repeat split; reflexivity.
  - exists (Scenario.downloaded Scenario.nine_bytes). repeat split; reflexivity.
  - reflexivity.
  - reflexivity.
  - reflexivity.
  - reflexivity.
  - reflexivity.
  - reflexivity.
  - reflexivity.
  - reflexivity.
Defined.

(* ================================================================== *)
(** ** Faults and the apology *)

(** X2: The inner [try] of the catch block, had the body still been readable:
    it sends the apology to [body.message.chat.id]. *)
Remark notify_user_on_unread_request (w : World) (body : jsval) (sent : list Call) :
  truthy (chat_id body) = true ->
  notify_user w {| request := Request.incoming body; calls := sent |}
  = ({| request := Request.incoming body;
        calls := sent ++ [Fetch (SendMessage (chat_id body) APOLOGY)] |},
     match fetch w (SendMessage (chat_id body) APOLOGY) with
     | Ok _ => Ok tt
     | Throw e => Throw e
     end).
Proof.
  intros T. unfold notify_user, chat_id in *. step. step. rewrite T.
  apply sendMessageToTelegram_run.
Qed.

(** X1: In the handler the body has been read by line 152 when the catch block
    runs, so the catch block adds no call to those of the [try]. *)
Remark catch_block_sends_nothing (w : World) (req : Request.t) :
  calls (fst (handle w req))
  = calls (fst (POST_try w {| request := req; calls := [] |})).
Proof. rewrite handle_summary. reflexivity. Qed.

(** C7, on the code: when the synthesis stream emits ['error'] after any
    chunks, [generateSpeech] rejects with that error and nothing is sent to
    the voice endpoint; the handler answers 500.  No apology is sent
    either: the calls of the invocation are the six listed. *)
Theorem stream_error_sends_nothing
    (w : World) (body filePath : jsval) (audio : Buffer) (text reply : jsstring)
    (completion : ChatCompletion) (chunks : list Buffer) (err : Thrown) :
  voice_event body = true ->
  metadata_resolves w (file_id body) filePath ->
  download_resolves w filePath audio ->
  transcriptions_create w (whisper_params audio) = Ok text ->
  blank text = false ->
  completions_create w (tutor_params text) = Ok completion ->
  reply = or_else (first_content completion) FALLBACK_REPLY ->
  setMetadata w TTS_VOICE AUDIO_24KHZ_96KBITRATE_MONO_MP3 = Ok tt ->
  toStream w reply = Ok (emits chunks (Err err)) ->
  (forall s, snd (generateSpeech w reply s) = Throw err)
  /\ handle w (Request.incoming body)
     = ({| request := consumed body;
           calls := [ Fetch (GetFile (file_id body));
                      Fetch (FileDownload filePath);
                      Transcribe (whisper_params audio);
                      Complete (tutor_params text);
                      SetMetadata TTS_VOICE AUDIO_24KHZ_96KBITRATE_MONO_MP3;
                      ToStream reply ] |},
        Ok ERROR_500).
Proof.
  intros V Hm Hd Ht B Hc -> Hs Hr. split.
  - intros s. rewrite (@generateSpeech_rejects w _ _ _ s Hs Hr). reflexivity.
  - unfold handle, POST. rewrite try_catch_unfold. fold (arrives body).
    to_transcript V Hm Hd Ht. rewrite B. cbn.
    rewrite bind_unfold, getTutorResponse_run, Hc. cbn.
    step. change (printable (JStr ?t)) with true. cbn.
    rewrite bind_unfold, (@generateSpeech_rejects w _ _ _ _ Hs Hr). cbn.
    apply POST_catch_after_read.
Qed.

Lemma stream_error_sends_nothing_witness :
  let w := Scenario.round_trip "hello" Scenario.breaks_mid_stream in
  let body := Scenario.voice_update in
  (forall s, snd (generateSpeech w (lit Scenario.greeting) s)
             = Throw (Fault (lit "socket closed")))
  /\ handle w (Request.incoming body)
     = ({| request := consumed body;
           calls := [ Fetch (GetFile (JStr (lit "abc")));
                      Fetch (FileDownload (JStr (lit "voice/abc.oga")));
                      Transcribe (whisper_params Scenario.nine_bytes);
                      Complete (tutor_params (lit "hello"));
                      SetMetadata TTS_VOICE AUDIO_24KHZ_96KBITRATE_MONO_MP3;
                      ToStream (lit Scenario.greeting) ] |},
        Ok ERROR_500).
Proof.
  apply (@stream_error_sends_nothing
           (Scenario.round_trip "hello" Scenario.breaks_mid_stream)
           Scenario.voice_update
           (JStr (lit "voice/abc.oga")) Scenario.nine_bytes (lit "hello")
           (lit Scenario.greeting) (Scenario.one_choice Scenario.greeting)
           [[x01; x02]] (Fault (lit "socket closed"))).
  - reflexivity.
  - exists (Scenario.replied Scenario.found), Scenario.found.
    repeat split; reflexivity.
  - exists (Scenario.downloaded Scenario.nine_bytes). repeat split; reflexivity.
  - reflexivity.
  - reflexivity.
  - reflexivity.
  - reflexivity.
  - reflexivity.
  - reflexivity.
Defined.

(** C8, on the code: when the metadata capability answers with a falsy
    [ok] and the description [d], [getTelegramFilePath] throws an [Error]
    whose message is "Failed to get file path: " followed by [d], and the
    handler answers 500 [{ok: false, error: "Internal server error"}].  No
    apology is sent: the metadata fetch is the only call. *)
Theorem metadata_failure_sends_nothing
    (w : World) (body data : jsval) (response : Response.t) (d : jsstring) :
  voice_event body = true ->
  fetch w (GetFile (file_id body)) = Ok response ->
  Response.json response = Ok data ->
  nullish data = false ->
  truthy (prop data "ok") = false ->
  prop data "description" = JStr d ->
  let message := [Lit (lit "Failed to get file path: "); Interp (JStr d)] in
  (forall s, getTelegramFilePath w (file_id body) s
             = (log s (Fetch (GetFile (file_id body))), Throw (Error message)))
  /\ render message = Some (lit "Failed to get file path: " ++ d)
  /\ handle w (Request.incoming body)
     = ({| request := consumed body; calls := [Fetch (GetFile (file_id body))] |},
        Ok ERROR_500).
Proof.
  intros V F J N T D message.
  pose proof (voice_event_parts _ V) as (G & C & Pc & Pf).
  assert (E : forall s, getTelegramFilePath w (file_id body) s
                        = (log s (Fetch (GetFile (file_id body))),
                           Throw (Error message))).
  { intros s. unfold getTelegramFilePath. step. rewrite Pf. cbn.
    step_by F. step_by J. step_by N. rewrite T. cbn.
    step_by N. rewrite D. step. reflexivity. }
  split; [exact E|]. split.
  - cbn. rewrite app_nil_r. reflexivity.
  - unfold handle, POST. rewrite try_catch_unfold. fold (arrives body).
    unfold chat_id, file_id in *. pass_guard G.
    step_by Nm. step_by C. step_by Nm. step_by Nv.
    step. rewrite Pc, Pf. cbn.
    rewrite bind_unfold, E. cbn. apply POST_catch_after_read.
Qed.

Lemma metadata_failure_sends_nothing_witness :
  let w := Scenario.metadata_fails in
  let body := Scenario.voice_update in
  let message :=
    [Lit (lit "Failed to get file path: "); Interp (JStr (lit "file not found"))] in
  (forall s, getTelegramFilePath w (file_id body) s
             = (log s (Fetch (GetFile (file_id body))), Throw (Error message)))
  /\ render message = Some (lit "Failed to get file path: " ++ lit "file not found")
  /\ handle w (Request.incoming body)
     = ({| request := consumed body; calls := [Fetch (GetFile (file_id body))] |},
        Ok ERROR_500).
Proof.
  apply (@metadata_failure_sends_nothing
           Scenario.metadata_fails Scenario.voice_update Scenario.not_found
           (Scenario.refused "Bad Request" Scenario.not_found) (lit "file not found"));
    reflexivity.
Defined.

Lemma notify_user_on_unread_request_witness :
  notify_user Scenario.metadata_fails
    {| request := Request.incoming Scenario.voice_update; calls := [] |}
  = ({| request := Request.incoming Scenario.voice_update;
        calls := [] ++ [Fetch (SendMessage (chat_id Scenario.voice_update) APOLOGY)] |},
     match fetch Scenario.metadata_fails
             (SendMessage (chat_id Scenario.voice_update) APOLOGY) with
     | Ok _ => Ok tt
     | Throw e => Throw e
     end).
Proof.
  apply (notify_user_on_unread_request Scenario.metadata_fails Scenario.voice_update []).
  reflexivity.
Defined.

(* ================================================================== *)
(** ** Every path through the handler *)

Ltac open_helpers :=
  unfold getTelegramFilePath, downloadTelegramFile, transcribeAudio,
    getTutorResponse, generateSpeech, sendVoiceToTelegram, sendMessageToTelegram,
    not_voice, outbound, await, ret, throw.

Ltac split_path :=
  match goal with
  | |- context [if ?b then _ else _] => destruct b eqn:?
  | |- context [match ?x with Ok _ => _ | Throw _ => _ end] => destruct x eqn:?
  end.

(** Symbolic execution: one goal per way through the code. *)
Ltac paths :=
  repeat first
    [ step | rewrite get_run; cbn | rewrite template_run; cbn
    | rewrite console_log_run; cbn | split_path; cbn ].

(** The paths of the [try] on a request whose body parses as [body]. *)
Ltac paths_of_try :=
  unfold POST_try; rewrite bind_unfold; unfold request_json; cbn;
  open_helpers; paths.

(** X3: The metadata fetch comes first: whatever the event and the services,
    the first outbound call of an invocation, if there is one, is the
    [getFile] request for [message.voice.file_id]. *)
Theorem first_call_is_the_metadata_fetch (w : World) (body : jsval) :
  match calls (fst (handle w (Request.incoming body))) with
  | [] => True
  | c :: _ => c = Fetch (GetFile (file_id body))
  end.
Proof.
  rewrite handle_summary. cbn [fst]. unfold file_id.
  paths_of_try; cbn; auto.
Qed.

(** X4: The stages run in a fixed order and stop at the first fault: the calls
    of an invocation, read as stages, are an initial part of the voice run
    or of the notice run. *)
Theorem calls_follow_the_pipeline (w : World) (req : Request.t) :
  exists rest,
    map stage (calls (fst (handle w req))) ++ rest = voice_run
    \/ map stage (calls (fst (handle w req))) ++ rest = notice_run.
Proof.
  rewrite handle_summary. cbn [fst].
  unfold POST_try. rewrite bind_unfold. unfold request_json. cbn.
  destruct (Request.json req) as [r' [body|e]]; cbn.
  - open_helpers; paths; cbn; eexists;
      first [ left; reflexivity | right; reflexivity ].
  - eexists. left. reflexivity.
Qed.

Lemma drain_ok_inv (readable : Readable) (seen : list Buffer) (audio : Buffer) :
  drain seen readable = Ok audio ->
  exists chunks, readable = emits chunks End_ /\ audio = List.concat (seen ++ chunks).
Proof.
  revert seen. induction readable as [c rest IH| |err]; intros seen H; cbn in H.
  - destruct (IH _ H) as (chunks & -> & ->).
    exists (c :: chunks). rewrite <- app_assoc. split; reflexivity.
  - exists []. rewrite app_nil_r. injection H as <-. split; reflexivity.
  - discriminate H.
Qed.

(** Pick the call a membership hypothesis is about. *)
Ltac which_call H :=
  cbn in H; repeat (destruct H as [H|H]); try discriminate H; try contradiction.

(** X5: Only whole audio is uploaded: every voice sent to Telegram goes to
    [message.chat.id] and is the concatenation of all the chunks of a
    synthesis stream that closed with ['end']. *)
Theorem uploaded_voice_is_a_finished_stream
    (w : World) (body chatId : jsval) (audio : Buffer) :
  In (Fetch (SendVoice chatId audio)) (calls (fst (handle w (Request.incoming body)))) ->
  chatId = chat_id body
  /\ exists text chunks,
       toStream w text = Ok (emits chunks End_) /\ audio = List.concat chunks.
Proof.
  rewrite handle_summary. cbn [fst]. unfold chat_id.
  paths_of_try; cbn; intros H; which_call H.
  all: injection H as <- <-; split; [reflexivity|].
  all: match goal with
       | D : drain [] _ = Ok _ |- _ =>
           destruct (drain_ok_inv _ _ D) as (chunks & -> & ->)
       end; eauto.
Qed.

Lemma uploaded_voice_is_a_finished_stream_witness :
  JNum 42%float = chat_id Scenario.voice_update
  /\ exists text chunks,
       toStream (Scenario.round_trip "hello" Scenario.two_chunks) text
       = Ok (emits chunks End_)
       /\ [x01; x02; x03] = List.concat chunks.
Proof.
  apply (@uploaded_voice_is_a_finished_stream
           (Scenario.round_trip "hello" Scenario.two_chunks) Scenario.voice_update
           (JNum 42%float) [x01; x02; x03]).
  do 6 right. left. reflexivity.
Defined.

(** X6: The only text the handler sends is the "could not understand" notice,
    and only after a transcription that came back empty or whitespace-only;
    in particular the apology of the catch block is never sent. *)
Theorem only_text_is_the_blank_notice
    (w : World) (req : Request.t) (chatId : jsval) (text : jsstring) :
  In (Fetch (SendMessage chatId text)) (calls (fst (handle w req))) ->
  text = NOT_UNDERSTOOD
  /\ exists audio transcript,
       transcriptions_create w (whisper_params audio) = Ok transcript
       /\ blank transcript = true.
Proof.
  rewrite handle_summary. cbn [fst].
  unfold POST_try. rewrite bind_unfold. unfold request_json. cbn.
  destruct (Request.json req) as [r' [body|e]]; cbn; [|contradiction].
  open_helpers; paths; cbn; intros H; which_call H.
  all: injection H as <- <-; split; [reflexivity|].
  all: match goal with
       | B : negb (truthy (JStr ?t)) || _ = true |- _ =>
           rewrite empty_transcript_test in B
       end; eauto.
Qed.

Lemma only_text_is_the_blank_notice_witness :
  NOT_UNDERSTOOD = NOT_UNDERSTOOD
  /\ exists audio transcript,
       transcriptions_create (Scenario.round_trip "  " Scenario.two_chunks)
         (whisper_params audio) = Ok transcript
       /\ blank transcript = true.
Proof.
  apply (@only_text_is_the_blank_notice
           (Scenario.round_trip "  " Scenario.two_chunks)
           (Request.incoming Scenario.voice_update) (JNum 42%float) NOT_UNDERSTOOD).
  do 3 right. left. reflexivity.
Defined.

(** X7: The generation capability is asked only about a transcript that is not
    blank, with the fixed persona as the system turn and the transcript as
    the one user turn. *)
Theorem generation_gets_a_spoken_transcript
    (w : World) (req : Request.t) (p : Completions.params) :
  In (Complete p) (calls (fst (handle w req))) ->
  exists audio transcript,
    transcriptions_create w (whisper_params audio) = Ok transcript
    /\ blank transcript = false
    /\ p = tutor_params transcript.
Proof.
  rewrite handle_summary. cbn [fst].
  unfold POST_try. rewrite bind_unfold. unfold request_json. cbn.
  destruct (Request.json req) as [r' [body|e]]; cbn; [|contradiction].
  open_helpers; paths; cbn; intros H; which_call H.
  all: injection H as <-.
  all: match goal with
       | B : negb (truthy (JStr ?t)) || _ = false |- _ =>
           rewrite empty_transcript_test in B
       end; eauto.
Qed.

Lemma generation_gets_a_spoken_transcript_witness :
  exists audio transcript,
    transcriptions_create (Scenario.round_trip "hello" Scenario.two_chunks)
      (whisper_params audio) = Ok transcript
    /\ blank transcript = false
    /\ tutor_params (lit "hello") = tutor_params transcript.
Proof.
  apply (@generation_gets_a_spoken_transcript
           (Scenario.round_trip "hello" Scenario.two_chunks)
           (Request.incoming Scenario.voice_update) (tutor_params (lit "hello"))).
  do 3 right. left. reflexivity.
Defined.

(** X8: Each fetch stage feeds the next: a file is downloaded only from the
    path the metadata capability resolved for [message.voice.file_id]. *)
Theorem download_follows_the_resolved_path
    (w : World) (body filePath : jsval) :
  In (Fetch (FileDownload filePath)) (calls (fst (handle w (Request.incoming body)))) ->
  metadata_resolves w (file_id body) filePath.
Proof.
  rewrite handle_summary. cbn [fst]. unfold file_id, metadata_resolves.
  paths_of_try; cbn; intros H; which_call H.
  all: injection H as <-.
  all: repeat match goal with
       | E : negb _ = false |- _ => apply negb_false_iff in E
       | E : _ && true = true |- _ => rewrite andb_true_r in E
       end.
  all: eauto 10.
Qed.

Lemma download_follows_the_resolved_path_witness :
  metadata_resolves (Scenario.round_trip "hello" Scenario.two_chunks)
    (file_id Scenario.voice_update) (JStr (lit "voice/abc.oga")).
Proof.
  apply (@download_follows_the_resolved_path
           (Scenario.round_trip "hello" Scenario.two_chunks) Scenario.voice_update
           (JStr (lit "voice/abc.oga"))).
  right. left. reflexivity.
Defined.

(** X9: What is transcribed is what was downloaded: the transcription is asked
    about the bytes of a download that was answered 2xx, wrapped as
    [voice.ogg], with the fixed model and language. *)
Theorem transcription_gets_the_download
    (w : World) (req : Request.t) (p : Transcriptions.params) :
  In (Transcribe p) (calls (fst (handle w req))) ->
  exists filePath audio,
    download_resolves w filePath audio /\ p = whisper_params audio.
Proof.
  rewrite handle_summary. cbn [fst]. unfold download_resolves.
  unfold POST_try. rewrite bind_unfold. unfold request_json. cbn.
  destruct (Request.json req) as [r' [body|e]]; cbn; [|contradiction].
  open_helpers; paths; cbn; intros H; which_call H.
  all: injection H as <-.
  all: repeat match goal with
       | E : negb _ = false |- _ => apply negb_false_iff in E
       end.
  all: eauto 10.
Qed.

Lemma transcription_gets_the_download_witness :
  exists filePath audio,
    download_resolves (Scenario.round_trip "hello" Scenario.two_chunks) filePath audio
    /\ whisper_params Scenario.nine_bytes = whisper_params audio.
Proof.
  apply (@transcription_gets_the_download
           (Scenario.round_trip "hello" Scenario.two_chunks)
           (Request.incoming Scenario.voice_update)
           (whisper_params Scenario.nine_bytes)).
  do 2 right. left. reflexivity.
Defined.

(** X10: The synthesizer is never given an empty text: what is synthesized is
    the reply built from a completion the generation capability returned
    (its first content, or the fixed fallback), and it is not empty. *)
Theorem synthesis_gets_a_nonempty_reply
    (w : World) (req : Request.t) (text : jsstring) :
  In (ToStream text) (calls (fst (handle w req))) ->
  text <> []
  /\ exists transcript completion,
       completions_create w (tutor_params transcript) = Ok completion
       /\ text = or_else (first_content completion) FALLBACK_REPLY.
Proof.
  rewrite handle_summary. cbn [fst].
  unfold POST_try. rewrite bind_unfold. unfold request_json. cbn.
  destruct (Request.json req) as [r' [body|e]]; cbn; [|contradiction].
  open_helpers; paths; cbn; intros H; which_call H.
  all: injection H as <-.
  all: split; [apply or_else_nonempty, FALLBACK_REPLY_nonempty | eauto].
Qed.

Lemma synthesis_gets_a_nonempty_reply_witness :
  lit Scenario.greeting <> []
  /\ exists transcript completion,
       completions_create (Scenario.round_trip "hello" Scenario.two_chunks)
         (tutor_params transcript) = Ok completion
       /\ lit Scenario.greeting = or_else (first_content completion) FALLBACK_REPLY.
Proof.
  apply (@synthesis_gets_a_nonempty_reply
           (Scenario.round_trip "hello" Scenario.two_chunks)
           (Request.incoming Scenario.voice_update) (lit Scenario.greeting)).
  do 5 right. left. reflexivity.
Defined.

(** Put the facts a path has collected in a form [congruence] reads. *)
Ltac tidy :=
  repeat match goal with
         | E : negb _ = false |- _ => apply negb_false_iff in E
         | E : negb _ = true |- _ => apply negb_true_iff in E
         | E : _ && true = _ |- _ => rewrite andb_true_r in E
         end.

(** X11: The answer tells the outcome.  A 200 means that the event was skipped
    without any call or that Telegram took the one send of the invocation;
    a 500 means that Telegram took nothing: no voice was accepted and no
    text was answered. *)
Theorem answer_tells_the_outcome (w : World) (req : Request.t) :
  (snd (handle w req) = Ok OK_200 ->
   calls (fst (handle w req)) = []
   \/ exists c, In c (calls (fst (handle w req))) /\ accepted w c)
  /\ (snd (handle w req) = Ok ERROR_500 ->
      forall c, In c (calls (fst (handle w req))) -> ~ accepted w c).
Proof.
  rewrite handle_summary. cbn [fst snd].
  destruct (POST_try w {| request := req; calls := [] |}) as [s1 r] eqn:R.
  revert R. unfold POST_try. rewrite bind_unfold. unfold request_json. cbn.
  destruct (Request.json req) as [r' [body|e]]; cbn.
  - open_helpers; paths; intros R; inversion R; subst s1 r; clear R; cbn; tidy;
      (split; intros E; [|intros c H A]).
    all: try (unfold OK_200, ERROR_500 in E; discriminate E).
    all: try (left; reflexivity).
    all: try (which_call H; subst c; cbn in A; try contradiction;
              destruct A as (response & A); intuition congruence).
    all: right; eexists; (split; [cbn; eauto 10 | cbn; eauto]).
  - intros R; inversion R; subst s1 r; clear R; cbn.
    split; [intros E; unfold OK_200, ERROR_500 in E; discriminate E | intros _ c []].
Qed.

(** X12: A fault ends the run.  Every call but the last of an invocation was
    answered, and an invocation in which a service rejected a call is
    answered 500: nothing is retried and no stage runs after a rejection. *)
Theorem a_rejection_ends_the_run (w : World) (req : Request.t) :
  (forall c, In c (removelast (calls (fst (handle w req)))) -> ~ rejected w c)
  /\ (forall c, In c (calls (fst (handle w req))) -> rejected w c ->
      snd (handle w req) = Ok ERROR_500).
Proof.
  rewrite handle_summary. cbn [fst snd].
  destruct (POST_try w {| request := req; calls := [] |}) as [s1 r] eqn:R.
  revert R. unfold POST_try. rewrite bind_unfold. unfold request_json. cbn.
  destruct (Request.json req) as [r' [body|e]]; cbn.
  - open_helpers; paths; intros R; inversion R; subst s1 r; clear R; cbn; tidy;
      (split; intros c H; [intros A|intros A; try reflexivity]).
    all: which_call H; subst c; cbn in A; destruct A as (e' & A); congruence.
  - intros R; inversion R; subst s1 r; clear R; cbn.
    split; intros c [].
Qed.

(** X13: A request whose body cannot be read as JSON (no body, malformed text,
    a body already consumed), or whose body is the JSON value [null], is
    answered 500 without any outbound call. *)
Theorem unreadable_body_answers_500 (w : World) (req : Request.t) :
  (exists e, snd (Request.json req) = Throw e)
  \/ (exists body, snd (Request.json req) = Ok body /\ nullish body = true) ->
  handle w req
  = ({| request := fst (Request.json req); calls := [] |}, Ok ERROR_500).
Proof.
  intros H. rewrite handle_summary. cbn zeta.
  assert (E : exists e, POST_try w {| request := req; calls := [] |}
                        = ({| request := fst (Request.json req); calls := [] |},
                           Throw e)).
  { unfold POST_try. rewrite bind_unfold. unfold request_json. cbn.
    destruct (Request.json req) as [r' [body|e]]; cbn in *.
    - destruct H as [[e H]|(body' & H & N)]; [discriminate H|].
      injection H as <-. step. step_by N. eauto.
    - eauto. }
  destruct E as [e E]. rewrite E. reflexivity.
Qed.

Lemma unreadable_body_answers_500_witness :
  handle Scenario.offline {| Request.body := Some Request.Unparsable;
                             Request.disturbed := false |}
  = ({| request := fst (Request.json {| Request.body := Some Request.Unparsable;
                                        Request.disturbed := false |});
        calls := [] |}, Ok ERROR_500).
Proof.
  apply (unreadable_body_answers_500 Scenario.offline
           {| Request.body := Some Request.Unparsable; Request.disturbed := false |}).
  left. exists SyntaxError. reflexivity.
Defined.

(* ================================================================== *)
(** ** Faults of the single stages *)

(** X14: A metadata reply that is [null], or that has a truthy [ok] but no
    [result], makes [getTelegramFilePath] throw a TypeError after its one
    request, not the "Failed to get file path" error. *)
Theorem malformed_metadata_reply_is_a_TypeError
    (w : World) (fileId data : jsval) (response : Response.t) (s : State) :
  printable fileId = true ->
  fetch w (GetFile fileId) = Ok response ->
  Response.json response = Ok data ->
  nullish data = true
  \/ (truthy (prop data "ok") = true /\ nullish (prop data "result") = true) ->
  getTelegramFilePath w fileId s = (log s (Fetch (GetFile fileId)), Throw TypeError).
Proof.
  intros P F J H. unfold getTelegramFilePath. step. rewrite P. cbn.
  step_by F. step_by J. step.
  destruct H as [N|[T N]].
  - rewrite N. reflexivity.
  - rewrite (prop_truthy_object _ _ T). cbn. rewrite T. cbn.
    step_by (prop_truthy_object _ _ T). rewrite get_run, N. reflexivity.
Qed.

Lemma malformed_metadata_reply_is_a_TypeError_witness :
  getTelegramFilePath (metadata_answers JNull) (JStr (lit "abc")) (arrives JNull)
  = (log (arrives JNull) (Fetch (GetFile (JStr (lit "abc")))), Throw TypeError).
Proof.
  apply (@malformed_metadata_reply_is_a_TypeError
           (metadata_answers JNull) (JStr (lit "abc")) JNull
           (Scenario.replied JNull) (arrives JNull)).
  - reflexivity.
  - reflexivity.
  - reflexivity.
  - left. reflexivity.
Defined.

Lemma downloadTelegramFile_calls (w : World) (filePath : jsval) (s : State) :
  printable filePath = true ->
  fst (downloadTelegramFile w filePath s) = log s (Fetch (FileDownload filePath)).
Proof.
  intros P. unfold downloadTelegramFile. step. rewrite P. cbn.
  step. destruct (fetch w _) as [response|]; cbn; [|reflexivity].
  destruct (Response.ok response); reflexivity.
Qed.

(** X15: A metadata reply with a truthy [ok] and a [result] that has no
    [file_path] is not an error: [getTelegramFilePath] returns [undefined]
    and the handler goes on to request the download of the file
    [undefined]. *)
Theorem missing_file_path_is_downloaded_as_undefined
    (w : World) (body data : jsval) (response : Response.t) :
  voice_event body = true ->
  fetch w (GetFile (file_id body)) = Ok response ->
  Response.json response = Ok data ->
  truthy (prop data "ok") = true ->
  nullish (prop data "result") = false ->
  prop (prop data "result") "file_path" = JUndefined ->
  (forall s, getTelegramFilePath w (file_id body) s
             = (log s (Fetch (GetFile (file_id body))), Ok JUndefined))
  /\ exists rest,
       calls (fst (handle w (Request.incoming body)))
       = Fetch (GetFile (file_id body)) :: Fetch (FileDownload JUndefined) :: rest.
Proof.
  intros V F J T N E.
  assert (Hm : metadata_resolves w (file_id body) JUndefined).
  { exists response, data. repeat split; assumption || reflexivity. }
  pose proof (voice_event_parts _ V) as (G & C & Pc & Pf).
  split; [intros s; apply (getTelegramFilePath_resolves _ Pf Hm)|].
  rewrite handle_summary. cbn [fst]. fold (arrives body).
  unfold chat_id, file_id in *. pass_guard G.
  step_by Nm. step_by C. step_by Nm. step_by Nv.
  step. rewrite Pc, Pf. cbn.
  rewrite bind_unfold, (getTelegramFilePath_resolves _ Pf Hm). cbn.
  step. change (printable JUndefined) with true. cbn.
  rewrite bind_unfold.
  lazymatch goal with
  | |- context [match downloadTelegramFile w ?p ?s with _ => _ end] =>
      pose proof (@downloadTelegramFile_calls w p s eq_refl) as L;
      destruct (downloadTelegramFile w p s) as [s1 [audio|e]]
  end; cbn in L; subst s1.
  - lazymatch goal with
    | |- context [?k (log ?s ?c)] =>
        assert (B : footprint 1 k) by bounded;
        destruct (B (log s c)) as (_ & l & -> & _)
    end.
    exists l. reflexivity.
  - exists []. reflexivity.
Qed.

Lemma missing_file_path_is_downloaded_as_undefined_witness :
  let w := metadata_answers found_without_path in
  (forall s, getTelegramFilePath w (file_id Scenario.voice_update) s
             = (log s (Fetch (GetFile (file_id Scenario.voice_update))), Ok JUndefined))
  /\ exists rest,
       calls (fst (handle w (Request.incoming Scenario.voice_update)))
       = Fetch (GetFile (file_id Scenario.voice_update))
         :: Fetch (FileDownload JUndefined) :: rest.
Proof.
  apply (@missing_file_path_is_downloaded_as_undefined
           (metadata_answers found_without_path) Scenario.voice_update
           found_without_path (Scenario.replied found_without_path));
    reflexivity.
Defined.

(** X16: A download answered with a non-2xx status throws an [Error] whose
    message is "Failed to download file: " followed by the status text;
    the handler stops there: two calls, no transcription, and the 500. *)
Theorem refused_download_stops_the_pipeline
    (w : World) (body filePath : jsval) (response : Response.t) :
  voice_event body = true ->
  metadata_resolves w (file_id body) filePath ->
  fetch w (FileDownload filePath) = Ok response ->
  Response.ok response = false ->
  let message :=
    [Lit (lit "Failed to download file: "); Interp (JStr (Response.statusText response))] in
  (forall s, downloadTelegramFile w filePath s
             = (log s (Fetch (FileDownload filePath)), Throw (Error message)))
  /\ render message = Some (lit "Failed to download file: " ++ Response.statusText response)
  /\ handle w (Request.incoming body)
     = ({| request := consumed body;
           calls := [Fetch (GetFile (file_id body)); Fetch (FileDownload filePath)] |},
        Ok ERROR_500).
Proof.
  intros V Hm F O message.
  pose proof (voice_event_parts _ V) as (G & C & Pc & Pf).
  pose proof Hm as (? & ? & _ & _ & _ & _ & _ & P).
  assert (E : forall s, downloadTelegramFile w filePath s
                        = (log s (Fetch (FileDownload filePath)),
                           Throw (Error message))).
  { intros s. unfold downloadTelegramFile. step. rewrite P. cbn.
    step_by F. rewrite O. reflexivity. }
  split; [exact E|]. split.
  - cbn. rewrite app_nil_r. reflexivity.
  - unfold handle, POST. rewrite try_catch_unfold. fold (arrives body).
    unfold chat_id, file_id in *. pass_guard G.
    step_by Nm. step_by C. step_by Nm. step_by Nv.
    step. rewrite Pc, Pf. cbn.
    rewrite bind_unfold, (getTelegramFilePath_resolves _ Pf Hm). cbn.
    step. rewrite P. cbn.
    rewrite bind_unfold, E. cbn. apply POST_catch_after_read.
Qed.

Lemma refused_download_stops_the_pipeline_witness :
  let body := Scenario.voice_update in
  let filePath := JStr (lit "voice/abc.oga") in
  let message := [Lit (lit "Failed to download file: "); Interp (JStr (lit "Not Found"))] in
  (forall s, downloadTelegramFile telegram_refuses filePath s
             = (log s (Fetch (FileDownload filePath)), Throw (Error message)))
  /\ render message = Some (lit "Failed to download file: " ++ lit "Not Found")
  /\ handle telegram_refuses (Request.incoming body)
     = ({| request := consumed body;
           calls := [Fetch (GetFile (file_id body)); Fetch (FileDownload filePath)] |},
        Ok ERROR_500).
Proof.
  apply (@refused_download_stops_the_pipeline
           telegram_refuses Scenario.voice_update (JStr (lit "voice/abc.oga"))
           (Scenario.refused "Not Found" JNull)).
  - reflexivity.
  - exists (Scenario.replied Scenario.found), Scenario.found.
    repeat split; reflexivity.
  - reflexivity.
  - reflexivity.
Defined.

(** X17: A voice refused by Telegram (non-2xx) throws an [Error] that carries
    the JSON body of the refusal; when that body cannot be read, the
    rejection of [response.json()] is what is thrown instead. *)
Theorem refused_voice_surfaces_the_error_body
    (w : World) (chatId : jsval) (audio : Buffer) (response : Response.t) (s : State) :
  toString_returns chatId = true ->
  fetch w (SendVoice chatId audio) = Ok response ->
  Response.ok response = false ->
  sendVoiceToTelegram w chatId audio s
  = (log s (Fetch (SendVoice chatId audio)),
     match Response.json response with
     | Ok errorData =>
         Throw (Error [Lit (lit "Failed to send voice: "); Stringified errorData])
     | Throw e => Throw e
     end).
Proof.
  intros T F O. unfold sendVoiceToTelegram. rewrite T. cbn.
  step_by F. rewrite O. cbn. step.
  destruct (Response.json response); reflexivity.
Qed.

Lemma refused_voice_surfaces_the_error_body_witness :
  sendVoiceToTelegram telegram_refuses (JNum 42%float) [x01] (arrives JNull)
  = (log (arrives JNull) (Fetch (SendVoice (JNum 42%float) [x01])),
     match Response.json (Scenario.refused "Bad Request" Scenario.not_found) with
     | Ok errorData =>
         Throw (Error [Lit (lit "Failed to send voice: "); Stringified errorData])
     | Throw e => Throw e
     end).
Proof.
  apply (@refused_voice_surfaces_the_error_body
           telegram_refuses (JNum 42%float) [x01]
           (Scenario.refused "Bad Request" Scenario.not_found) (arrives JNull));
    reflexivity.
Defined.

(** X18: A voice update whose [chat] has no [id] is processed all the way: the
    audio is fetched, transcribed, answered and synthesized, and only then
    [sendVoiceToTelegram] throws a TypeError at [chatId.toString()], before
    any request.  Nothing is sent and the answer is the 500. *)
Theorem missing_chat_id_fails_at_delivery
    (w : World) (body filePath : jsval) (audio : Buffer) (text reply : jsstring)
    (completion : ChatCompletion) (chunks : list Buffer) :
  voice_event body = true ->
  nullish (chat_id body) = true ->
  metadata_resolves w (file_id body) filePath ->
  download_resolves w filePath audio ->
  transcriptions_create w (whisper_params audio) = Ok text ->
  blank text = false ->
  completions_create w (tutor_params text) = Ok completion ->
  reply = or_else (first_content completion) FALLBACK_REPLY ->
  setMetadata w TTS_VOICE AUDIO_24KHZ_96KBITRATE_MONO_MP3 = Ok tt ->
  toStream w reply = Ok (emits chunks End_) ->
  (forall speech s,
      sendVoiceToTelegram w (chat_id body) speech s = (s, Throw TypeError))
  /\ handle w (Request.incoming body)
     = ({| request := consumed body;
           calls := [ Fetch (GetFile (file_id body));
                      Fetch (FileDownload filePath);
                      Transcribe (whisper_params audio);
                      Complete (tutor_params text);
                      SetMetadata TTS_VOICE AUDIO_24KHZ_96KBITRATE_MONO_MP3;
                      ToStream reply ] |},
        Ok ERROR_500).
Proof.
  intros V N Hm Hd Ht B Hc -> Hs Hr.
  assert (E : forall speech s,
             sendVoiceToTelegram w (chat_id body) speech s = (s, Throw TypeError)).
  { intros speech s. unfold sendVoiceToTelegram, toString_returns.
    rewrite N. reflexivity. }
  split; [exact E|].
  unfold handle, POST. rewrite try_catch_unfold. fold (arrives body).
  to_transcript V Hm Hd Ht. rewrite B. cbn.
  rewrite bind_unfold, getTutorResponse_run, Hc. cbn.
  step. change (printable (JStr ?t)) with true. cbn.
  rewrite bind_unfold, (@generateSpeech_drains w _ _ _ Hs Hr). cbn.
  step. rewrite bind_unfold, E. cbn. apply POST_catch_after_read.
Qed.

Lemma missing_chat_id_fails_at_delivery_witness :
  let w := Scenario.round_trip "hello" Scenario.two_chunks in
  (forall speech s,
      sendVoiceToTelegram w (chat_id chat_without_id) speech s = (s, Throw TypeError))
  /\ handle w (Request.incoming chat_without_id)
     = ({| request := consumed chat_without_id;
           calls := [ Fetch (GetFile (file_id chat_without_id));
                      Fetch (FileDownload (JStr (lit "voice/abc.oga")));
                      Transcribe (whisper_params Scenario.nine_bytes);
                      Complete (tutor_params (lit "hello"));
                      SetMetadata TTS_VOICE AUDIO_24KHZ_96KBITRATE_MONO_MP3;
                      ToStream (lit Scenario.greeting) ] |},
        Ok ERROR_500).
Proof.
  apply (@missing_chat_id_fails_at_delivery
           (Scenario.round_trip "hello" Scenario.two_chunks) chat_without_id
           (JStr (lit "voice/abc.oga")) Scenario.nine_bytes (lit "hello")
           (lit Scenario.greeting) (Scenario.one_choice Scenario.greeting)
           [[x01; x02]; [x03]]).
  - reflexivity.
  - reflexivity.
  - exists (Scenario.replied Scenario.found), Scenario.found.
    repeat split; reflexivity.
  - exists (Scenario.downloaded Scenario.nine_bytes). repeat split; reflexivity.
  - reflexivity.
  - reflexivity.
  - reflexivity.
  - reflexivity.
  - reflexivity.
  - reflexivity.
Defined.

(* ================================================================== *)
(** ** The guard and what follows it *)

(** C1, amended: the handler short-circuits (no call, 200 [{ok: true}])
    exactly when [message] or [message.voice] is falsy; the file
    identifier is not inspected.  An event with both truthy is processed.
    The handler reads [message.chat.id] and logs the two identifiers: when
    [chat] is missing or [null], or an identifier does not convert to text,
    that throws a TypeError and the answer is the 500, with no call.
    Otherwise the first call is the metadata fetch for
    [message.voice.file_id], whatever that is, and the pipeline goes on:
    when the metadata and the download answer, the next calls are the
    download of the resolved path and the transcription of the downloaded
    bytes. *)
Theorem guard_decides_short_circuit (w : World) (body : jsval) :
  nullish body = false ->
  (short_circuits w body <-> passes_guard body = false)
  /\ (passes_guard body = true ->
      if voice_event body
      then exists rest,
             calls (fst (handle w (Request.incoming body)))
             = Fetch (GetFile (file_id body)) :: rest
      else POST_try w (arrives body)
           = ({| request := consumed body; calls := [] |}, Throw TypeError)
           /\ handle w (Request.incoming body)
              = ({| request := consumed body; calls := [] |}, Ok ERROR_500))
  /\ (voice_event body = true ->
      forall filePath audio,
        metadata_resolves w (file_id body) filePath ->
        download_resolves w filePath audio ->
        exists rest,
          calls (fst (handle w (Request.incoming body)))
          = Fetch (GetFile (file_id body))
            :: Fetch (FileDownload filePath)
            :: Transcribe (whisper_params audio) :: rest).
Proof.
  intros N.
  assert (First : voice_event body = true ->
                  exists rest,
                    calls (fst (handle w (Request.incoming body)))
                    = Fetch (GetFile (file_id body)) :: rest).
  { intros V. pose proof (voice_event_parts _ V) as (G & C & Pc & Pf).
    rewrite handle_summary. cbn [fst]. fold (arrives body).
    unfold chat_id, file_id in *. clear N. pass_guard G.
    step_by Nm. step_by C. step_by Nm. step_by Nv.
    step. rewrite Pc, Pf. cbn. rewrite bind_unfold.
    lazymatch goal with
    | |- context [match getTelegramFilePath w ?f ?s with _ => _ end] =>
        pose proof (getTelegramFilePath_calls w f s Pf) as L;
        destruct (getTelegramFilePath w f s) as [s1 [filePath|e]]
    end; cbn in L; subst s1.
    - lazymatch goal with
      | |- context [?k (log ?s ?c)] =>
          assert (B : footprint 1 k) by bounded;
          destruct (B (log s c)) as (_ & l & -> & _)
      end.
      exists l. reflexivity.
    - exists []. reflexivity. }
  assert (Stops : passes_guard body = true -> voice_event body = false ->
                  POST_try w (arrives body)
                  = ({| request := consumed body; calls := [] |}, Throw TypeError)).
  { intros G V. unfold voice_event, chat_id, file_id in V. rewrite G in V.
    cbn in V. clear N. pass_guard G.
    step_by Nm. step.
    destruct (nullish (prop (prop body "message") "chat")) eqn:C; cbn;
      [reflexivity|].
    step_by Nm. step_by Nv. step. cbn in V.
    destruct (printable (prop (prop (prop body "message") "chat") "id")); cbn in *;
      [|reflexivity].
    rewrite V. reflexivity. }
  split; [|split].
  - split; [|apply (POST_skips w body N)].
    destruct (passes_guard body) eqn:G; [|reflexivity].
    unfold short_circuits. intros H. exfalso.
    destruct (voice_event body) eqn:V.
    + destruct (First eq_refl) as [rest E]. rewrite H in E. discriminate E.
    + revert H. unfold handle, POST. rewrite try_catch_unfold.
      fold (arrives body). rewrite (Stops eq_refl eq_refl), POST_catch_after_read.
      unfold OK_200, ERROR_500. discriminate.
  - intros G. destruct (voice_event body) eqn:V; [exact (First eq_refl)|].
    split; [exact (Stops G eq_refl)|].
    unfold handle, POST. rewrite try_catch_unfold. fold (arrives body).
    rewrite (Stops G eq_refl). apply POST_catch_after_read.
  - intros V filePath audio Hm Hd.
    pose proof (voice_event_parts _ V) as (G & C & Pc & Pf).
    pose proof Hm as (? & ? & _ & _ & _ & _ & _ & P).
    rewrite handle_summary. cbn [fst]. fold (arrives body).
    unfold chat_id, file_id in *. clear N. pass_guard G.
    step_by Nm. step_by C. step_by Nm. step_by Nv.
    step. rewrite Pc, Pf. cbn.
    rewrite bind_unfold, (getTelegramFilePath_resolves _ Pf Hm). cbn.
    step. rewrite P. cbn.
    rewrite bind_unfold, (downloadTelegramFile_resolves _ P Hd). cbn.
    step. rewrite bind_unfold, transcribeAudio_run. cbn.
    destruct (transcriptions_create w (whisper_params audio)) as [text|e]; cbn.
    + match goal with
      | |- context [?k (log ?s ?c)] =>
          assert (B : footprint 1 k) by bounded;
          destruct (B (log s c)) as (_ & l & -> & _)
      | |- context [?k {| request := ?r; calls := ?c |}] =>
          assert (B : footprint 1 k) by bounded;
          destruct (B {| request := r; calls := c |}) as (_ & l & -> & _)
      end.
      exists l. reflexivity.
    + exists []. reflexivity.
Qed.

Lemma guard_decides_short_circuit_witness :
  let w := Scenario.round_trip "hello" Scenario.two_chunks in
  let body := Scenario.voice_update in
  passes_guard body = true
  /\ ~ short_circuits w body
  /\ exists rest,
       calls (fst (handle w (Request.incoming body)))
       = Fetch (GetFile (JStr (lit "abc")))
         :: Fetch (FileDownload (JStr (lit "voice/abc.oga")))
         :: Transcribe (whisper_params Scenario.nine_bytes) :: rest.
Proof.
  destruct (guard_decides_short_circuit
              (Scenario.round_trip "hello" Scenario.two_chunks)
              Scenario.voice_update eq_refl) as (Iff & _ & Chain).
  split; [reflexivity|]. split.
  - intros H. apply Iff in H. discriminate H.
  - apply (Chain eq_refl (JStr (lit "voice/abc.oga")) Scenario.nine_bytes).
    + exists (Scenario.replied Scenario.found), Scenario.found.
      repeat split; reflexivity.
    + exists (Scenario.downloaded Scenario.nine_bytes). repeat split; reflexivity.
Defined.
